(** * nachet-metadata-format: metadata shaping and inference queries

    A shallow embedding of the two Python modules
    [datastore/db/metadata/machine_learning] and
    [datastore/db/queries/inference], with the properties their
    specification states about them. *)

From Stdlib Require Import String Ascii List ZArith Lia Bool.
From Stdlib Require Import DecimalString DecimalZ.
Import ListNotations.
Local Open Scope string_scope.
Local Open Scope list_scope.

(* ===================================================================== *)
(** * Python runtime: exceptions, [str], insertion-ordered dicts         *)
(* ===================================================================== *)

Module Py.

(** The exception classes the two modules define or can meet.  Every one
    of them derives from [Exception]; [DriverError] stands for the
    database driver's error family, [TypeError] and [IndexError] for a
    failed subscript [res[0]], [KeyError] for a failed [d[key]]. *)
Inductive exn_class : Type :=
| Exception
| MissingKeyError
| KeyError
| TypeError
| IndexError
| DriverError
| InferenceCreationError
| SeedObjectCreationError
| InferenceNotFoundError
| InferenceObjectNotFoundError.

Definition exn_class_eqb (a b : exn_class) : bool :=
  match a, b with
  | Exception, Exception | MissingKeyError, MissingKeyError
  | KeyError, KeyError | TypeError, TypeError | IndexError, IndexError
  | DriverError, DriverError
  | InferenceCreationError, InferenceCreationError
  | SeedObjectCreationError, SeedObjectCreationError
  | InferenceNotFoundError, InferenceNotFoundError
  | InferenceObjectNotFoundError, InferenceObjectNotFoundError => true
  | _, _ => false
  end.

(** An exception object: its class and its single constructor argument. *)
Record exn : Type := Exn { exn_cls : exn_class; exn_arg : string }.

(** [isinstance(e, handler)]: every class is a direct subclass of
    [Exception], and no other class has subclasses. *)
Definition isinstance (e : exn) (handler : exn_class) : bool :=
  match handler with
  | Exception => true
  | _ => exn_class_eqb (exn_cls e) handler
  end.

(** A computation that returns or raises. *)
Definition result (A : Type) : Type := (exn + A)%type.

Definition ret {A} (a : A) : result A := inr a.
Definition raise {A} (e : exn) : result A := inl e.
Definition bind {A B} (m : result A) (k : A -> result B) : result B :=
  match m with
  | inl e => inl e
  | inr a => k a
  end.

(** [try: body  except handler as e: h e] *)
Definition try_except {A} (body : result A) (handler : exn_class)
    (h : exn -> result A) : result A :=
  match body with
  | inl e => if isinstance e handler then h e else inl e
  | inr a => inr a
  end.

(** The [__str__] protocol, as used by [str(x)] and by f-strings. *)
Class Str (A : Type) : Type := str : A -> string.

#[global] Instance Str_string : Str string := fun s => s.
#[global] Instance Str_bool : Str bool :=
  fun b => if b then "True" else "False".
#[global] Instance Str_Z : Str Z :=
  fun z => NilZero.string_of_int (Z.to_int z).
(** [str(e)] of an exception built from one argument is that argument. *)
#[global] Instance Str_exn : Str exn := exn_arg.

(** ** Insertion-ordered dictionaries with string keys

    A Python [dict] keeps its keys in insertion order; [json.dumps] and
    [for key in d] both follow that order. *)
Section Dict.
Context {V : Type}.

Definition dict : Type := list (string * V).

(** [key in d] *)
Fixpoint dict_in (k : string) (d : dict) : bool :=
  match d with
  | [] => false
  | (k', _) :: d' => if String.eqb k k' then true else dict_in k d'
  end.

Fixpoint dict_get (d : dict) (k : string) : option V :=
  match d with
  | [] => None
  | (k', v) :: d' => if String.eqb k k' then Some v else dict_get d' k
  end.

(** [d[key]] *)
Definition dict_getitem (d : dict) (k : string) : result V :=
  match dict_get d k with
  | Some v => ret v
  | None => raise (Exn KeyError k)
  end.

(** [d[key] = v]: an existing key keeps its position, a new key goes
    last. *)
Fixpoint dict_setitem (d : dict) (k : string) (v : V) : dict :=
  match d with
  | [] => [(k, v)]
  | (k', v') :: d' =>
      if String.eqb k k' then (k', v) :: d'
      else (k', v') :: dict_setitem d' k v
  end.

(** [list(d)]: the keys in iteration order. *)
Definition dict_keys (d : dict) : list string := map fst d.
End Dict.
Arguments dict V : clear implicits.

End Py.

Module PyNotations.
Notation "x <- m ;; k" := (Py.bind m (fun x => k))
  (at level 61, m at next level, right associativity).
Notation "m ;;; k" := (Py.bind m (fun _ => k))
  (at level 61, right associativity).
End PyNotations.

(* ===================================================================== *)
(** * The [json] module: documents and [json.dumps]                      *)
(* ===================================================================== *)

Module Json.

Definition text : Type := list ascii.

(** The values a record can hold.  The first seven are the JSON
    documents: a character of a string is a code point below 256, and a
    float is kept as the text [json.dumps] writes for it (its [repr]
    when it is finite).  A tuple is written as a list is.  [JOther]
    stands for an object of any other type ([date], [set], [bytes],
    ...), named by its type: [json.dumps] has no encoding for it. *)
#[warnings="-register-all"]
Inductive value : Type :=
| JNull
| JBool (b : bool)
| JInt (z : Z)
| JFloat (repr : string)
| JStr (s : string)
| JList (l : list value)
| JDict (d : list (string * value))
| JTuple (l : list value)
| JOther (type_name : string).

Definition quote : ascii := "034"%char.
Definition backslash : ascii := "\"%char.

Definition is_printable (c : ascii) : bool :=
  (32 <=? nat_of_ascii c)%nat && (nat_of_ascii c <=? 126)%nat.

Definition hex_digit (n : nat) : ascii :=
  nth n (list_ascii_of_string "0123456789abcdef") "0"%char.

(** One character of a string literal, as [ensure_ascii=True] writes it:
    the two-character escapes of [ESCAPE_DCT], the character itself
    when it lies in [' '..'~'], and [\u00xx] otherwise. *)
Definition escape_char (c : ascii) : text :=
  if Ascii.eqb c quote then [backslash; quote]
  else if Ascii.eqb c backslash then [backslash; backslash]
  else if Ascii.eqb c "008"%char then [backslash; "b"%char]
  else if Ascii.eqb c "012"%char then [backslash; "f"%char]
  else if Ascii.eqb c "010"%char then [backslash; "n"%char]
  else if Ascii.eqb c "013"%char then [backslash; "r"%char]
  else if Ascii.eqb c "009"%char then [backslash; "t"%char]
  else if is_printable c then [c]
  else [backslash; "u"%char; "0"%char; "0"%char;
        hex_digit (nat_of_ascii c / 16); hex_digit (nat_of_ascii c mod 16)].

Definition encode_string (s : string) : text :=
  quote :: flat_map escape_char (list_ascii_of_string s) ++ [quote].

(** [sep.join(parts)] *)
Fixpoint join (sep : text) (parts : list text) : text :=
  match parts with
  | [] => []
  | [p] => p
  | p :: ps => p ++ sep ++ join sep ps
  end.

Definition item_sep : text := list_ascii_of_string ", ".
Definition key_sep : text := list_ascii_of_string ": ".

(** What [json.dumps] writes, with its default separators, on
    characters.  Nothing is written for a [JOther]: see [dumps]. *)
Fixpoint encode (v : value) : text :=
  match v with
  | JNull => list_ascii_of_string "null"
  | JBool true => list_ascii_of_string "true"
  | JBool false => list_ascii_of_string "false"
  | JInt z => list_ascii_of_string (NilZero.string_of_int (Z.to_int z))
  | JFloat r => list_ascii_of_string r
  | JStr s => encode_string s
  | JList l | JTuple l =>
      "["%char :: join item_sep (map encode l) ++ ["]"%char]
  | JDict d =>
      "{"%char ::
      join item_sep
        (map (fun kv => encode_string (fst kv) ++ key_sep ++ encode (snd kv)) d)
      ++ ["}"%char]
  | JOther _ => []
  end.

(** The type of the first object, in the order [json.dumps] walks a
    value, that it cannot encode. *)
Fixpoint unserialisable (v : value) : option string :=
  match v with
  | JOther type_name => Some type_name
  | JList l | JTuple l =>
      (fix first (l : list value) : option string :=
         match l with
         | [] => None
         | x :: l' =>
             match unserialisable x with
             | Some type_name => Some type_name
             | None => first l'
             end
         end) l
  | JDict d =>
      (fix first (d : list (string * value)) : option string :=
         match d with
         | [] => None
         | kv :: d' =>
             match unserialisable (snd kv) with
             | Some type_name => Some type_name
             | None => first d'
             end
         end) d
  | _ => None
  end.

Definition serialisable (v : value) : bool :=
  match unserialisable v with
  | Some _ => false
  | None => true
  end.

(** [json.dumps]: the text, or the [TypeError] of the first object it
    cannot encode.  The limits of the interpreter (the depth of
    recursion, the number of digits of an [int]) are left out. *)
Definition dumps (v : value) : Py.result string :=
  match unserialisable v with
  | Some type_name =>
      Py.raise (Py.Exn Py.TypeError
                  ("Object of type " ++ type_name
                   ++ " is not JSON serializable"))
  | None => Py.ret (string_of_list_ascii (encode v))
  end.


(** ** Numbers

    A number is an optional minus sign, an integer part (a lone zero, or
    digits that start with a nonzero one), an optional fraction (a dot
    and digits) and an optional exponent (e or E, an optional sign, and
    digits); it is a float when it has a fraction or an exponent, an int
    otherwise. *)

Definition is_digit (c : ascii) : bool :=
  (48 <=? nat_of_ascii c)%nat && (nat_of_ascii c <=? 57)%nat.

Definition is_sign (c : ascii) : bool :=
  Ascii.eqb c "-"%char || Ascii.eqb c "+"%char.

(** The characters a number is made of. *)
Definition is_num_char (c : ascii) : bool :=
  is_digit c || is_sign c || Ascii.eqb c "."%char
  || Ascii.eqb c "e"%char || Ascii.eqb c "E"%char.

Fixpoint skip_digits (s : text) : text :=
  match s with
  | c :: s' => if is_digit c then skip_digits s' else s
  | [] => []
  end.

(** One digit or more. *)
Definition digits1 (s : text) : option text :=
  match s with
  | c :: s' => if is_digit c then Some (skip_digits s') else None
  | [] => None
  end.

(** The optional minus sign and the integer part. *)
Definition int_part (s : text) : option text :=
  let unsigned :=
    match s with
    | c :: s' => if Ascii.eqb c "-"%char then s' else s
    | [] => s
    end in
  match unsigned with
  | c :: s' =>
      if Ascii.eqb c "0"%char then Some s'
      else if is_digit c then Some (skip_digits s')
      else None
  | [] => None
  end.

(** The optional fraction: whether there is one, and what follows it. *)
Definition frac_part (s : text) : option (bool * text) :=
  match s with
  | c :: s' =>
      if Ascii.eqb c "."%char then
        match digits1 s' with
        | Some r => Some (true, r)
        | None => None
        end
      else Some (false, s)
  | [] => Some (false, s)
  end.

(** The optional exponent. *)
Definition exp_part (s : text) : option (bool * text) :=
  match s with
  | c :: s' =>
      if Ascii.eqb c "e"%char || Ascii.eqb c "E"%char then
        let digits :=
          match s' with
          | c' :: s'' => if is_sign c' then s'' else s'
          | [] => s'
          end in
        match digits1 digits with
        | Some r => Some (true, r)
        | None => None
        end
      else Some (false, s)
  | [] => Some (false, s)
  end.

Inductive number_kind : Type := IsInt | IsFloat.

(** The kind of number a whole token is, if it is one. *)
Definition classify_number (tok : text) : option number_kind :=
  match int_part tok with
  | None => None
  | Some r1 =>
      match frac_part r1 with
      | None => None
      | Some (has_frac, r2) =>
          match exp_part r2 with
          | Some (has_exp, []) =>
              Some (if has_frac || has_exp then IsFloat else IsInt)
          | _ => None
          end
      end
  end.

(** The [repr] of a finite float: a number with a fraction or an
    exponent. *)
Definition is_float_repr (r : string) : bool :=
  match classify_number (list_ascii_of_string r) with
  | Some IsFloat => true
  | _ => false
  end.

(** ** Well-formed documents

    JSON documents whose floats are finite and whose dicts have distinct
    keys: no tuple, no object of another type. *)

Fixpoint distinct (keys : list string) : bool :=
  match keys with
  | [] => true
  | k :: keys' => negb (existsb (String.eqb k) keys') && distinct keys'
  end.

Fixpoint wf (v : value) : bool :=
  match v with
  | JFloat r => is_float_repr r
  | JList l => forallb wf l
  | JDict d => distinct (map fst d) && forallb (fun kv => wf (snd kv)) d
  | JTuple _ | JOther _ => false
  | _ => true
  end.

(** ** [json.loads] *)

Definition is_ws (c : ascii) : bool :=
  Ascii.eqb c " "%char || Ascii.eqb c "009"%char
  || Ascii.eqb c "010"%char || Ascii.eqb c "013"%char.

Fixpoint skip_ws (s : text) : text :=
  match s with
  | c :: s' => if is_ws c then skip_ws s' else s
  | [] => []
  end.

(** The longest prefix of characters that satisfy [p], and the rest. *)
Fixpoint span (p : ascii -> bool) (s : text) : text * text :=
  match s with
  | c :: s' =>
      if p c then let (tok, rest) := span p s' in (c :: tok, rest)
      else ([], s)
  | [] => ([], [])
  end.

Definition hex_value (c : ascii) : option nat :=
  let n := nat_of_ascii c in
  if is_digit c then Some (n - 48)
  else if (97 <=? n)%nat && (n <=? 102)%nat then Some (n - 87)
  else if (65 <=? n)%nat && (n <=? 70)%nat then Some (n - 55)
  else None.

Definition hex4 (h1 h2 h3 h4 : ascii) : option nat :=
  match hex_value h1, hex_value h2, hex_value h3, hex_value h4 with
  | Some a, Some b, Some c, Some d => Some (((a * 16 + b) * 16 + c) * 16 + d)
  | _, _, _, _ => None
  end.

(** The character a two-character escape stands for. *)
Definition unescape (c : ascii) : option ascii :=
  if Ascii.eqb c quote then Some quote
  else if Ascii.eqb c backslash then Some backslash
  else if Ascii.eqb c "/"%char then Some "/"%char
  else if Ascii.eqb c "b"%char then Some "008"%char
  else if Ascii.eqb c "f"%char then Some "012"%char
  else if Ascii.eqb c "n"%char then Some "010"%char
  else if Ascii.eqb c "r"%char then Some "013"%char
  else if Ascii.eqb c "t"%char then Some "009"%char
  else None.

Definition push (c : ascii) (r : option (text * text)) : option (text * text) :=
  match r with
  | Some (cs, rest) => Some (c :: cs, rest)
  | None => None
  end.

(** The characters of a string literal after its opening quote, up to
    the closing quote, and what follows it.  A raw control character is
    refused, so is a code point beyond 255. *)
Fixpoint scan_string (s : text) : option (text * text) :=
  match s with
  | [] => None
  | c :: s1 =>
      if Ascii.eqb c quote then Some ([], s1)
      else if Ascii.eqb c backslash then
        match s1 with
        | [] => None
        | e :: s2 =>
            if Ascii.eqb e "u"%char then
              match s2 with
              | h1 :: h2 :: h3 :: h4 :: s3 =>
                  match hex4 h1 h2 h3 h4 with
                  | Some n =>
                      if (n <? 256)%nat then
                        push (ascii_of_nat n) (scan_string s3)
                      else None
                  | None => None
                  end
              | _ => None
              end
            else
              match unescape e with
              | Some c' => push c' (scan_string s2)
              | None => None
              end
        end
      else if (nat_of_ascii c <? 32)%nat then None
      else push c (scan_string s1)
  end.

Definition scan_number (s : text) : option (value * text) :=
  let (tok, rest) := span is_num_char s in
  match classify_number tok with
  | Some IsInt =>
      match NilZero.int_of_string (string_of_list_ascii tok) with
      | Some d => Some (JInt (Z.of_int d), rest)
      | None => None
      end
  | Some IsFloat => Some (JFloat (string_of_list_ascii tok), rest)
  | None => None
  end.

(** [s] starts with [word]: what follows it. *)
Fixpoint strip_prefix (word s : text) : option text :=
  match word, s with
  | [], _ => Some s
  | w :: word', c :: s' =>
      if Ascii.eqb w c then strip_prefix word' s' else None
  | _ :: _, [] => None
  end.

Definition literal (word : string) (v : value) (s : text)
    : option (value * text) :=
  match strip_prefix (list_ascii_of_string word) s with
  | Some rest => Some (v, rest)
  | None => None
  end.

(** [dict(pairs)]: a later pair with the same key replaces the value. *)
Definition dict_of_pairs (pairs : list (string * value))
    : list (string * value) :=
  fold_left (fun d kv => Py.dict_setitem d (fst kv) (snd kv)) pairs [].

(** The recursive descent, bounded by [fuel] nested calls. *)
Fixpoint parse_value (fuel : nat) (s : text) : option (value * text) :=
  match fuel with
  | O => None
  | S fuel' =>
      match skip_ws s with
      | [] => None
      | c :: s1 =>
          if is_digit c || Ascii.eqb c "-"%char then scan_number (c :: s1)
          else if Ascii.eqb c quote then
            match scan_string s1 with
            | Some (cs, rest) => Some (JStr (string_of_list_ascii cs), rest)
            | None => None
            end
          else if Ascii.eqb c "["%char then
            match skip_ws s1 with
            | c' :: rest =>
                if Ascii.eqb c' "]"%char then Some (JList [], rest)
                else
                  match parse_elements fuel' s1 with
                  | Some (l, rest') => Some (JList l, rest')
                  | None => None
                  end
            | [] => None
            end
          else if Ascii.eqb c "{"%char then
            match skip_ws s1 with
            | c' :: rest =>
                if Ascii.eqb c' "}"%char then Some (JDict [], rest)
                else
                  match parse_members fuel' s1 with
                  | Some (d, rest') => Some (JDict (dict_of_pairs d), rest')
                  | None => None
                  end
            | [] => None
            end
          else if Ascii.eqb c "n"%char then literal "null" JNull (c :: s1)
          else if Ascii.eqb c "t"%char then literal "true" (JBool true) (c :: s1)
          else if Ascii.eqb c "f"%char then
            literal "false" (JBool false) (c :: s1)
          else None
      end
  end

(** The elements of a list after its [[]: a value, then [,] and more
    elements, or the closing []]. *)
with parse_elements (fuel : nat) (s : text) : option (list value * text) :=
  match fuel with
  | O => None
  | S fuel' =>
      match parse_value fuel' s with
      | None => None
      | Some (v, r) =>
          match skip_ws r with
          | c :: r1 =>
              if Ascii.eqb c ","%char then
                match parse_elements fuel' r1 with
                | Some (vs, r2) => Some (v :: vs, r2)
                | None => None
                end
              else if Ascii.eqb c "]"%char then Some ([v], r1)
              else None
          | [] => None
          end
      end
  end

(** The members of an object after its [{]. *)
with parse_members (fuel : nat) (s : text)
    : option (list (string * value) * text) :=
  match fuel with
  | O => None
  | S fuel' =>
      match skip_ws s with
      | q :: s1 =>
          if Ascii.eqb q quote then
            match scan_string s1 with
            | None => None
            | Some (k, r) =>
                match skip_ws r with
                | c :: r1 =>
                    if Ascii.eqb c ":"%char then
                      match parse_value fuel' r1 with
                      | None => None
                      | Some (v, r2) =>
                          match skip_ws r2 with
                          | c' :: r3 =>
                              if Ascii.eqb c' ","%char then
                                match parse_members fuel' r3 with
                                | Some (ms, r4) =>
                                    Some ((string_of_list_ascii k, v) :: ms, r4)
                                | None => None
                                end
                              else if Ascii.eqb c' "}"%char then
                                Some ([(string_of_list_ascii k, v)], r3)
                              else None
                          | [] => None
                          end
                      end
                    else None
                | [] => None
                end
            end
          else None
      | [] => None
      end
  end.

(** [json.loads]: one document, then nothing but white space.  [None]
    stands for [JSONDecodeError]. *)
Definition loads (s : string) : option value :=
  let chars := list_ascii_of_string s in
  match parse_value (S (length chars)) chars with
  | Some (v, rest) =>
      match skip_ws rest with
      | [] => Some v
      | _ :: _ => None
      end
  | None => None
  end.

(** ** Vocabulary of the proofs *)

(** [rest] cannot continue a token of characters that satisfy [p]. *)
Definition stops (p : ascii -> bool) (rest : text) : Prop :=
  match rest with
  | [] => True
  | c :: _ => p c = false
  end.

(** [s] is [pre ++ r] for a [pre] made of number characters. *)
Definition consumed (s r : text) : Prop :=
  exists pre, s = pre ++ r /\ forallb is_num_char pre = true.

(** What a value is written with starts the value: it is no white
    space and closes no list or dict. *)
Definition opens (s : text) : Prop :=
  exists c tl,
    s = c :: tl /\ is_ws c = false /\
    Ascii.eqb c "]" = false /\ Ascii.eqb c "}" = false.

(** The nested calls [parse_value] makes to read a document back. *)
Fixpoint need (v : value) : nat :=
  match v with
  | JList l => S (list_sum (map (fun x => S (need x)) l))
  | JDict d => S (list_sum (map (fun kv => S (need (snd kv))) d))
  | _ => 1
  end.

(** Induction on documents, with the hypothesis for every element of a
    list and every value of a dict. *)
Fixpoint value_induction (P : value -> Prop)
    (HNull : P JNull) (HBool : forall b, P (JBool b))
    (HInt : forall z, P (JInt z)) (HFloat : forall r, P (JFloat r))
    (HStr : forall s, P (JStr s))
    (HList : forall l, Forall P l -> P (JList l))
    (HDict : forall d, Forall (fun kv => P (snd kv)) d -> P (JDict d))
    (HTuple : forall l, P (JTuple l))
    (HOther : forall type_name, P (JOther type_name))
    (v : value) {struct v} : P v :=
  let rec :=
    value_induction P HNull HBool HInt HFloat HStr HList HDict HTuple HOther in
  match v with
  | JNull => HNull
  | JBool b => HBool b
  | JInt z => HInt z
  | JFloat r => HFloat r
  | JStr s => HStr s
  | JList l =>
      HList l
        ((fix all (l : list value) : Forall P l :=
            match l with
            | [] => Forall_nil P
            | x :: l' => Forall_cons x (rec x) (all l')
            end) l)
  | JDict d =>
      HDict d
        ((fix all (d : list (string * value))
            : Forall (fun kv => P (snd kv)) d :=
            match d with
            | [] => Forall_nil _
            | kv :: d' => Forall_cons kv (rec (snd kv)) (all d')
            end) d)
  | JTuple l => HTuple l
  | JOther type_name => HOther type_name
  end.

(** What is to be shown of a document: written before a text that
    cannot continue a number, it is read back, and that text is left. *)
Definition reads_back (v : value) : Prop :=
  wf v = true ->
  forall fuel rest,
    need v <= fuel -> stops is_num_char rest ->
    parse_value fuel (encode v ++ rest) = Some (v, rest).


End Json.

(* ===================================================================== *)
(** * datastore/db/metadata/machine_learning                             *)
(* ===================================================================== *)

Module MachineLearning.
Import Py PyNotations Json.

Definition record : Type := dict value.

(** [for key in keys: if not key in d: raise MissingKeyError(key)] *)
Fixpoint check_keys (keys : list string) (d : record) : result unit :=
  match keys with
  | [] => ret tt
  | key :: keys' =>
      if negb (dict_in key d) then raise (Exn MissingKeyError key)
      else check_keys keys' d
  end.

Definition pipeline_keys : list string :=
  ["models"; "created_by"; "creation_date"; "description"; "job_name";
   "version"; "dataset_description"; "Accuracy"].

Definition build_pipeline_import (pipeline : record) : result string :=
  try_except
    (check_keys pipeline_keys pipeline ;;;
     models <- dict_getitem pipeline "models" ;;
     created_by <- dict_getitem pipeline "created_by" ;;
     creation_date <- dict_getitem pipeline "creation_date" ;;
     description <- dict_getitem pipeline "description" ;;
     job_name <- dict_getitem pipeline "job_name" ;;
     version <- dict_getitem pipeline "version" ;;
     dataset_description <- dict_getitem pipeline "dataset_description" ;;
     accuracy <- dict_getitem pipeline "Accuracy" ;;
     let pipeline_db :=
       [("models", models);
        ("created_by", created_by);
        ("creation_date", creation_date);
        ("description", description);
        ("job_name", job_name);
        ("version", version);
        ("dataset_description", dataset_description);
        ("Accuracy", accuracy)] in
     dumps (JDict pipeline_db))
    MissingKeyError
    (fun e => raise (Exn MissingKeyError ("Missing key: " ++ str e))).

(** [for key in data: db[key] = data[key]] *)
Fixpoint copy_fields (keys : list string) (data db : record) : result record :=
  match keys with
  | [] => ret db
  | key :: keys' =>
      v <- dict_getitem data key ;;
      copy_fields keys' data (dict_setitem db key v)
  end.

(** The dict literal [build_pipeline_export] starts from. *)
Definition pipeline_base {Id : Type} `{Str Id}
    (name : string) (id : Id) (default : bool) (model_ids : value)
    : record :=
  [("models", model_ids);
   ("pipeline_id", JStr (str id));
   ("pipeline_name", JStr name);
   ("default", JBool default)].

Definition build_pipeline_export {Id : Type} `{Str Id}
    (data : record) (name : string) (id : Id) (default : bool)
    (model_ids : value) : result record :=
  let pipeline_db := pipeline_base name id default model_ids in
  copy_fields (dict_keys data) data pipeline_db.

Definition model_keys : list string :=
  ["endpoint"; "api_key"; "content_type"; "deployment_platform";
   "created_by"; "creation_date"; "description"; "version"; "job_name";
   "dataset_description"; "Accuracy"].

Definition build_model_import (model : record) : result string :=
  try_except
    (check_keys model_keys model ;;;
     endpoint <- dict_getitem model "endpoint" ;;
     api_key <- dict_getitem model "api_key" ;;
     content_type <- dict_getitem model "content_type" ;;
     deployment_platform <- dict_getitem model "deployment_platform" ;;
     created_by <- dict_getitem model "created_by" ;;
     creation_date <- dict_getitem model "creation_date" ;;
     description <- dict_getitem model "description" ;;
     version <- dict_getitem model "version" ;;
     job_name <- dict_getitem model "job_name" ;;
     dataset_description <- dict_getitem model "dataset_description" ;;
     accuracy <- dict_getitem model "Accuracy" ;;
     let model_db :=
       [("endpoint", endpoint);
        ("api_key", api_key);
        ("content_type", content_type);
        ("deployment_platform", deployment_platform);
        ("created_by", created_by);
        ("creation_date", creation_date);
        ("description", description);
        ("version", version);
        ("job_name", job_name);
        ("dataset_description", dataset_description);
        ("Accuracy", accuracy)] in
     dumps (JDict model_db))
    MissingKeyError
    (fun e => raise (Exn MissingKeyError ("Missing key: " ++ str e))).

(** The dict literal [build_model_export] starts from. *)
Definition model_base {Id : Type} `{Str Id}
    (id : Id) (name endpoint task_name version : string) : record :=
  [("model_id", JStr (str id));
   ("model_name", JStr name);
   ("endpoint_name", JStr endpoint);
   ("task", JStr task_name);
   ("version", JStr version)].

Definition build_model_export {Id : Type} `{Str Id}
    (data : record) (id : Id) (name endpoint task_name version : string)
    : result record :=
  let model_db := model_base id name endpoint task_name version in
  copy_fields (dict_keys data) data model_db.

(** ** Vocabulary of the specification *)

(** The two kinds of record the shaper handles. *)
Inductive entity : Type := Pipeline | Model.

Definition required_keys (e : entity) : list string :=
  match e with
  | Pipeline => pipeline_keys
  | Model => model_keys
  end.

Definition build_import (e : entity) : record -> result string :=
  match e with
  | Pipeline => build_pipeline_import
  | Model => build_model_import
  end.

(** The record holds every key of [keys]. *)
Definition has_keys (keys : list string) (d : record) : bool :=
  forallb (fun k => dict_in k d) keys.

(** Every field of the record under a key of [keys] holds a value that
    [json.dumps] can encode. *)
Definition serialisable_on (keys : list string) (d : record) : bool :=
  forallb
    (fun k =>
       match dict_get d k with
       | Some v => serialisable v
       | None => true
       end)
    keys.

(** The first key of [keys], in their order, that the record lacks. *)
Definition first_missing (keys : list string) (d : record) : option string :=
  find (fun k => negb (dict_in k d)) keys.

(** [db[key] = data[key]] for a key that [data] holds. *)
Definition assign (data db : record) (key : string) : record :=
  match dict_get data key with
  | Some v => dict_setitem db key v
  | None => db
  end.

(** The record [base] with every field of [data] assigned on top of it,
    in the iteration order of [data]. *)
Definition overlay (base data : record) : record :=
  fold_left (assign data) (dict_keys data) base.

(** The required-key subset of a record: the fields of [d] whose key is
    in [keys]. *)
Definition restrict (keys : list string) (d : record) : record :=
  filter (fun kv => existsb (String.eqb (fst kv)) keys) d.

(** [a == b] on dicts: the same keys, bound to the same values, in
    whatever order. *)
Definition same_record (a b : record) : Prop :=
  forall k, dict_get a k = dict_get b k.

(** ** Sample records *)

(** The eight required fields of a pipeline. *)
Definition sample_pipeline : record :=
  [("models", JList [JStr "m1"]);
   ("created_by", JStr "u1");
   ("creation_date", JStr "2024-01-01");
   ("description", JStr "d");
   ("job_name", JStr "j");
   ("version", JStr "1");
   ("dataset_description", JStr "dd");
   ("Accuracy", JFloat "0.9")].

(** The same without [Accuracy] and without [version]. *)
Definition sample_pipeline_incomplete : record :=
  [("models", JList [JStr "m1"]);
   ("created_by", JStr "u1");
   ("creation_date", JStr "2024-01-01");
   ("description", JStr "d");
   ("job_name", JStr "j");
   ("dataset_description", JStr "dd")].

(** A model record, its fields in another order than the required
    keys, with one field more. *)
Definition sample_model : record :=
  [("Accuracy", JFloat "0.87");
   ("model_name", JStr "seed-detector");
   ("endpoint", JStr "https://example.org/score");
   ("api_key", JStr "k");
   ("content_type", JStr "application/json");
   ("deployment_platform", JStr "azure");
   ("created_by", JStr "u1");
   ("creation_date", JStr "2024-01-01");
   ("description", JStr "a \ b");
   ("version", JInt 3);
   ("job_name", JStr "j");
   ("dataset_description", JDict [("size", JInt (-12)); ("tags", JList [])])].

(** The eight required fields of a pipeline, the creation date a
    [date] object. *)
Definition sample_pipeline_dated : record :=
  [("models", JList [JStr "m1"]);
   ("created_by", JStr "u1");
   ("creation_date", JOther "date");
   ("description", JStr "d");
   ("job_name", JStr "j");
   ("version", JStr "1");
   ("dataset_description", JStr "dd");
   ("Accuracy", JFloat "0.9")].


End MachineLearning.

(* ===================================================================== *)
(** * The database cursor                                                *)
(* ===================================================================== *)

Module Sql.
Import Py.

(** The right-hand side of a [SET] item or a [VALUES] item: a [%s]
    placeholder, bound to the next parameter, or [CURRENT_TIMESTAMP]. *)
Inductive expr : Type :=
| Placeholder
| CURRENT_TIMESTAMP.

(** The statements the query layer sends.  Every [WHERE] clause is
    [column = %s]; [None] as a column list is [*]. *)
Inductive stmt : Type :=
| INSERT (table : string) (columns : list string) (values : list expr)
         (returning : string)
| SELECT (columns : option (list string)) (table : string) (where_ : string)
| UPDATE (table : string) (set : list (string * expr)) (where_ : string).

(** A DB-API cursor, as far as the query layer uses it.  Each call
    returns or raises, and may change the cursor either way.  [fetchone]
    returns a row or [None]; the result of [fetchall] is tested against
    [None] by the caller, so it is typed as optional too. *)
Class Driver (cursor val : Type) : Type := {
  execute : stmt -> list val -> cursor -> result unit * cursor;
  fetchone : cursor -> result (option (list val)) * cursor;
  fetchall : cursor -> result (option (list (list val))) * cursor
}.

(** Code that runs against a cursor. *)
Definition M (cursor A : Type) : Type := cursor -> result A * cursor.

Section Monad.
Context {cursor : Type}.

Definition mret {A} (a : A) : M cursor A := fun c => (inr a, c).
Definition mraise {A} (e : exn) : M cursor A := fun c => (inl e, c).
Definition mbind {A B} (m : M cursor A) (k : A -> M cursor B) : M cursor B :=
  fun c =>
    match m c with
    | (inl e, c') => (inl e, c')
    | (inr a, c') => k a c'
    end.

(** [try: body  except handler: h] *)
Definition mtry {A} (body : M cursor A) (handler : exn_class)
    (h : exn -> M cursor A) : M cursor A :=
  fun c =>
    match body c with
    | (inl e, c') => if isinstance e handler then h e c' else (inl e, c')
    | (inr a, c') => (inr a, c')
    end.

(** [res[0]] on the result of [fetchone]. *)
Definition item0 {val} (res : option (list val)) : M cursor val :=
  match res with
  | None => mraise (Exn TypeError "'NoneType' object is not subscriptable")
  | Some [] => mraise (Exn IndexError "tuple index out of range")
  | Some (v :: _) => mret v
  end.
End Monad.

End Sql.

Module SqlNotations.
Notation "x <- m ;; k" := (Sql.mbind m (fun x => k))
  (at level 61, m at next level, right associativity).
Notation "m ;;; k" := (Sql.mbind m (fun _ => k))
  (at level 61, right associativity).
End SqlNotations.

(* ===================================================================== *)
(** * datastore/db/queries/inference                                     *)
(* ===================================================================== *)

Module Inference.
Import Py Sql SqlNotations.

Section Queries.
Context {cursor val : Type} `{Driver cursor val} `{Str val}.

(** ** Inference table *)

Definition new_inference {T : Type}
    (inference user_id picture_id : val) (type : T) : M cursor val :=
  mtry
    (let query :=
       INSERT "inference" ["inference"; "picture_id"; "user_id"]
              [Placeholder; Placeholder; Placeholder] "id" in
     execute query [inference; picture_id; user_id] ;;;
     row <- fetchone ;;
     inference_id <- item0 row ;;
     mret inference_id)
    Exception
    (fun _ => mraise (Exn InferenceCreationError
                        "Error: inference not uploaded")).

Definition get_inference (inference_id : val) : M cursor val :=
  mtry
    (let query := SELECT (Some ["inference"]) "inference" "id" in
     execute query [inference_id] ;;;
     row <- fetchone ;;
     res <- item0 row ;;
     mret res)
    Exception
    (fun _ => mraise (Exn InferenceNotFoundError
                        ("Error: could not get inference "
                         ++ str inference_id))).

Definition set_inference_feedback_user_id (inference_id user_id : val)
    : M cursor unit :=
  mtry
    (let query :=
       UPDATE "inference" [("feedback_user_id", Placeholder)] "id" in
     execute query [user_id; inference_id])
    Exception
    (fun _ => mraise (Exn Exception
                        ("Error: could not set feedback_user_id "
                         ++ str user_id ++ " for inference "
                         ++ str inference_id))).

Definition set_inference_verified (inference_id is_verified : val)
    : M cursor unit :=
  mtry
    (let query := UPDATE "inference" [("verified", Placeholder)] "id" in
     execute query [is_verified; inference_id])
    Exception
    (fun _ => mraise (Exn Exception
                        ("Error: could not update verified "
                         ++ str is_verified ++ " for inference "
                         ++ str inference_id))).

(** ** Object table *)

Definition new_inference_object (inference_id box_metadata type_id : val)
    : M cursor val :=
  mtry
    (let query :=
       INSERT "object" ["inference_id"; "box_metadata"; "type_id"]
              [Placeholder; Placeholder; Placeholder] "id" in
     execute query [inference_id; box_metadata; type_id] ;;;
     row <- fetchone ;;
     item0 row)
    Exception
    (fun _ => mraise (Exn InferenceCreationError
                        "Error: inference object not uploaded")).

Definition get_inference_object (inference_object_id : val)
    : M cursor (list val) :=
  mtry
    (let query := SELECT None "object" "id" in
     execute query [inference_object_id] ;;;
     res <- fetchone ;;
     match res with
     | None =>
         mraise (Exn Exception
                   ("Error: could not find inference object for id "
                    ++ str inference_object_id))
     | Some res => mret res
     end)
    Exception
    (fun _ => mraise (Exn InferenceObjectNotFoundError
                        ("Error: could not get inference object for id "
                         ++ str inference_object_id))).

Definition get_objects_by_inference (inference_id : val)
    : M cursor (list (list val)) :=
  mtry
    (let query := SELECT None "object" "inference_id" in
     execute query [inference_id] ;;;
     res <- fetchall ;;
     match res with
     | None =>
         mraise (Exn Exception
                   ("Error: could not find objects for inference "
                    ++ str inference_id))
     | Some res => mret res
     end)
    Exception
    (fun _ => mraise (Exn InferenceObjectNotFoundError
                        ("Error: could not get objects for inference "
                         ++ str inference_id))).

Definition set_inference_object_top_id (inference_object_id top_id : val)
    : M cursor unit :=
  mtry
    (let query := UPDATE "object" [("top_id", Placeholder)] "id" in
     execute query [top_id; inference_object_id])
    Exception
    (fun _ => mraise (Exn Exception
                        ("Error: could not set top_id " ++ str top_id
                         ++ " for inference " ++ str inference_object_id))).

Definition get_inference_object_top_id (inference_object_id : val)
    : M cursor val :=
  mtry
    (let query := SELECT (Some ["top_id"]) "object" "id" in
     execute query [inference_object_id] ;;;
     row <- fetchone ;;
     res <- item0 row ;;
     mret res)
    Exception
    (fun _ => mraise (Exn Exception
                        ("Error: could not get top_inference_id for inference "
                         ++ str inference_object_id))).

Definition set_inference_object_verified_id
    (inference_object_id verified_id : val) : M cursor unit :=
  mtry
    (let query :=
       UPDATE "object"
              [("verified_id", Placeholder);
               ("updated_at", CURRENT_TIMESTAMP)] "id" in
     execute query [verified_id; inference_object_id])
    Exception
    (fun _ => mraise (Exn Exception
                        ("Error: could not update verified_id for object "
                         ++ str inference_object_id))).

Definition set_inference_object_valid (inference_object_id is_valid : val)
    : M cursor unit :=
  mtry
    (let query := UPDATE "object" [("valid", Placeholder)] "id" in
     execute query [is_valid; inference_object_id])
    Exception
    (fun _ => mraise (Exn Exception
                        ("Error: could not update valid for object "
                         ++ str inference_object_id))).

(** ** Seed object table *)

Definition new_seed_object (seed_id object_id score : val) : M cursor val :=
  mtry
    (let query :=
       INSERT "seed_obj" ["seed_id"; "object_id"; "score"]
              [Placeholder; Placeholder; Placeholder] "id" in
     execute query [seed_id; object_id; score] ;;;
     row <- fetchone ;;
     item0 row)
    Exception
    (fun _ => mraise (Exn SeedObjectCreationError
                        "Error: seed object not uploaded")).
End Queries.

End Inference.

(** ** Vocabulary of the specification *)

Module Outcome.
Import Py Sql.

Section Fetch.
Context {cursor val : Type} `{Driver cursor val}.

(** What the driver does with a statement followed by one fetch: it
    raises (in [execute] or in the fetch), or it hands out nothing
    ([None]), or a result. *)
Inductive fetched (R : Type) : Type :=
| DriverRaised (e : exn)
| Nothing
| Fetched (r : R).
#[global] Arguments DriverRaised {R} e.
#[global] Arguments Nothing {R}.
#[global] Arguments Fetched {R} r.

Definition fetch_after {R} (fetch : cursor -> result (option R) * cursor)
    (q : stmt) (params : list val) (c : cursor) : fetched R :=
  match execute q params c with
  | (inl e, _) => DriverRaised e
  | (inr _, c1) =>
      match fetch c1 with
      | (inl e, _) => DriverRaised e
      | (inr None, _) => Nothing
      | (inr (Some r), _) => Fetched r
      end
  end.

(** [execute] then [fetchone]: [Nothing] is the zero-row result. *)
Definition execute_fetchone := fetch_after fetchone.
(** [execute] then [fetchall]. *)
Definition execute_fetchall := fetch_after fetchall.
End Fetch.

(** The five update functions, each taking the row id and the value. *)
Inductive setter : Type :=
| FeedbackUserId | Verified | ObjectTopId | ObjectVerifiedId | ObjectValid.

Section Setters.
Context {cursor val : Type} `{Driver cursor val} `{Str val}.

Definition run_setter (s : setter) : val -> val -> M cursor unit :=
  match s with
  | FeedbackUserId => Inference.set_inference_feedback_user_id
  | Verified => Inference.set_inference_verified
  | ObjectTopId => Inference.set_inference_object_top_id
  | ObjectVerifiedId => Inference.set_inference_object_verified_id
  | ObjectValid => Inference.set_inference_object_valid
  end.
End Setters.

(** The table a setter updates and the column it is named after. *)
Definition setter_table (s : setter) : string :=
  match s with
  | FeedbackUserId | Verified => "inference"
  | ObjectTopId | ObjectVerifiedId | ObjectValid => "object"
  end.

Definition setter_column (s : setter) : string :=
  match s with
  | FeedbackUserId => "feedback_user_id"
  | Verified => "verified"
  | ObjectTopId => "top_id"
  | ObjectVerifiedId => "verified_id"
  | ObjectValid => "valid"
  end.

(** The statement a setter sends; its parameters are the value, then
    the row id. *)
Definition setter_stmt (s : setter) : stmt :=
  UPDATE (setter_table s)
    ((setter_column s, Placeholder) ::
     match s with
     | ObjectVerifiedId => [("updated_at", CURRENT_TIMESTAMP)]
     | _ => []
     end)
    "id".

(** Whatever the cursor, the only exception [m] raises is [e]. *)
Definition raises_only {cursor A : Type} (m : M cursor A) (e : exn) : Prop :=
  forall c e', fst (m c) = inl e' -> e' = e.

End Outcome.

(* ===================================================================== *)
(** * A relational store behind the cursor                               *)
(* ===================================================================== *)

(** The three tables hold rows of named columns.  A statement is run
    against the tables the way SQL defines it: [INSERT] appends a row
    with the next [id], [SELECT] keeps the rows whose column equals the
    parameter, [UPDATE] assigns the [SET] columns of those rows.  Keys
    are drawn from a sequence and time is a clock reading.

    The schema is the database's: the store has no column types, no
    defaults and no constraints.  It runs every statement on a live
    connection whose table exists, a row holds the columns it was
    assigned, and values of different kinds are unequal.  What is
    proved on the store therefore takes the success of a write as a
    premise, never as a conclusion. *)
Module Store.
Import Py Sql.

Inductive sqlval : Type :=
| NULL
| BOOL (b : bool)
| INT (z : Z)
| REAL (repr : string)
| TEXT (s : string).

#[global] Instance Str_sqlval : Str sqlval :=
  fun v =>
    match v with
    | NULL => "None"
    | BOOL b => str b
    | INT z => str z
    | REAL r => r
    | TEXT s => s
    end.

(** SQL [=]: never true on [NULL]. *)
Definition sql_eqb (a b : sqlval) : bool :=
  match a, b with
  | BOOL x, BOOL y => Bool.eqb x y
  | INT x, INT y => Z.eqb x y
  | REAL x, REAL y => String.eqb x y
  | TEXT x, TEXT y => String.eqb x y
  | _, _ => false
  end.

Definition row : Type := dict sqlval.

(** The value of a column; a column the row does not set is [NULL]. *)
Definition column (r : row) (c : string) : sqlval :=
  match dict_get r c with
  | Some v => v
  | None => NULL
  end.

Record cursor : Type := Cursor {
  tables : dict (list row);
  next_id : Z;                               (* the key sequence *)
  clock : Z;                                 (* CURRENT_TIMESTAMP *)
  online : bool;                             (* the connection is usable *)
  pending : option (list (list sqlval));     (* the rows not yet fetched *)
  calls : list (stmt * list sqlval)          (* what [execute] was given *)
}.

Definition table (c : cursor) (t : string) : list row :=
  match dict_get (tables c) t with
  | Some rows => rows
  | None => []
  end.

Definition driver_error {A} (msg : string) (c : cursor) : result A * cursor :=
  (raise (Exn DriverError msg), c).

(** Binds the placeholders of [es] to the leading parameters; returns
    the values and the parameters left. *)
Fixpoint bind_exprs (now : Z) (es : list expr) (params : list sqlval)
    : option (list sqlval * list sqlval) :=
  match es with
  | [] => Some ([], params)
  | CURRENT_TIMESTAMP :: es' =>
      match bind_exprs now es' params with
      | Some (vs, rest) => Some (INT now :: vs, rest)
      | None => None
      end
  | Placeholder :: es' =>
      match params with
      | [] => None
      | p :: params' =>
          match bind_exprs now es' params' with
          | Some (vs, rest) => Some (p :: vs, rest)
          | None => None
          end
      end
  end.

(** [SET c1 = v1, c2 = v2, ...] on one row. *)
Definition assign_columns (r : row) (cols : list string) (vs : list sqlval)
    : row :=
  fold_left (fun r cv => dict_setitem r (fst cv) (snd cv)) (combine cols vs) r.

Definition matches (where_ : string) (w : sqlval) (r : row) : bool :=
  sql_eqb (column r where_) w.

Definition project (columns : option (list string)) (r : row) : list sqlval :=
  match columns with
  | None => map snd r
  | Some cs => map (column r) cs
  end.

Definition with_tables (c : cursor) (ts : dict (list row))
    (nid : Z) (res : option (list (list sqlval))) : cursor :=
  Cursor ts nid (clock c) (online c) res (calls c).

Definition run (q : stmt) (params : list sqlval) (c : cursor)
    : result unit * cursor :=
  if negb (online c) then driver_error "connection already closed" c
  else
    match q with
    | INSERT t cols vals returning =>
        match dict_get (tables c) t, bind_exprs (clock c) vals params with
        | Some rows, Some (vs, []) =>
            if (length cols =? length vs)%nat then
              let r := ("id", INT (next_id c)) :: combine cols vs in
              (ret tt,
               with_tables c (dict_setitem (tables c) t (rows ++ [r]))
                 (next_id c + 1) (Some [[column r returning]]))
            else driver_error "INSERT has more target columns than expressions" c
        | None, _ => driver_error "relation does not exist" c
        | _, _ => driver_error "wrong number of parameters" c
        end
    | SELECT cols t where_ =>
        match dict_get (tables c) t, params with
        | Some rows, [w] =>
            (ret tt,
             with_tables c (tables c) (next_id c)
               (Some (map (project cols) (filter (matches where_ w) rows))))
        | None, _ => driver_error "relation does not exist" c
        | _, _ => driver_error "wrong number of parameters" c
        end
    | UPDATE t set where_ =>
        match dict_get (tables c) t,
              bind_exprs (clock c) (map snd set) params with
        | Some rows, Some (vs, [w]) =>
            let upd r :=
              if matches where_ w r then assign_columns r (map fst set) vs
              else r in
            (ret tt,
             with_tables c (dict_setitem (tables c) t (map upd rows))
               (next_id c) None)
        | None, _ => driver_error "relation does not exist" c
        | _, _ => driver_error "wrong number of parameters" c
        end
    end.

Definition record_call (q : stmt) (params : list sqlval) (c : cursor)
    : cursor :=
  Cursor (tables c) (next_id c) (clock c) (online c) (pending c)
         (calls c ++ [(q, params)]).

Definition set_pending (c : cursor) (res : option (list (list sqlval)))
    : cursor :=
  Cursor (tables c) (next_id c) (clock c) (online c) res (calls c).

#[global] Instance Driver_store : Driver cursor sqlval := {
  execute q params c := run q params (record_call q params c);
  fetchone c :=
    match pending c with
    | None => driver_error "no results to fetch" c
    | Some [] => (ret None, c)
    | Some (r :: rs) => (ret (Some r), set_pending c (Some rs))
    end;
  fetchall c :=
    match pending c with
    | None => driver_error "no results to fetch" c
    | Some rs => (ret (Some rs), set_pending c (Some []))
    end
}.

(** No row of table [t] has the id the sequence gives next. *)
Definition fresh_id (c : cursor) (t : string) : bool :=
  forallb (fun r => negb (sql_eqb (column r "id") (INT (next_id c))))
    (table c t).

(** [m] leaves the part [f] of the cursor as it was, whether it
    returns or raises. *)
Definition keeps {X A : Type} (f : cursor -> X) (m : M cursor A) : Prop :=
  forall c, f (snd (m c)) = f c.

(** [m] hands the cursor the statements [l], with their parameters, and
    no other, whether it returns or raises. *)
Definition sends {A : Type} (m : M cursor A) (l : list (stmt * list sqlval))
    : Prop :=
  forall c, calls (snd (m c)) = calls c ++ l.

(** What is stored: the tables and the key sequence. *)
Definition stored (c : cursor) : dict (list row) * Z :=
  (tables c, next_id c).

(** ** Sample cursors *)

(** The three tables, empty, on a live connection. *)
Definition empty_store : cursor :=
  Cursor [("inference", []); ("object", []); ("seed_obj", [])]
         1 1700000000 true None [].

(** The same cursor once the connection is lost. *)
Definition offline (c : cursor) : cursor :=
  Cursor (tables c) (next_id c) (clock c) false (pending c) (calls c).

(** One inference (id 1) with two objects (ids 2 and 3), and a second
    inference (id 4) with none. *)
Definition sample_store : cursor :=
  Cursor
    [("inference",
      [[("id", INT 1); ("inference", TEXT "{}"); ("picture_id", INT 10);
        ("user_id", INT 20)];
       [("id", INT 4); ("inference", TEXT "[]"); ("picture_id", INT 11);
        ("user_id", INT 20)]]);
     ("object",
      [[("id", INT 2); ("inference_id", INT 1); ("box_metadata", TEXT "a");
        ("type_id", INT 1); ("updated_at", INT 1600000000)];
       [("id", INT 3); ("inference_id", INT 1); ("box_metadata", TEXT "b");
        ("type_id", INT 1); ("updated_at", INT 1600000000)]]);
     ("seed_obj", [])]
    5 1700000000 true None [].

End Store.
(* ===================================================================== *)
(** * Properties of the dictionary model                                 *)
(* ===================================================================== *)

Section DictFacts.
Import Py.
Context {V : Type}.
Implicit Types (d : dict V) (k : string) (v : V).

Lemma dict_in_get d k :
  dict_in k d = true <-> exists v, dict_get d k = Some v.
Proof.
  induction d as [|[k' v'] d IH]; simpl.
  - split; [discriminate | intros [v Hv]; discriminate].
  - destruct (String.eqb k k').
    + split; [intros _; now exists v' | reflexivity].
    + exact IH.
Qed.

Lemma dict_in_false_get d k :
  dict_in k d = false <-> dict_get d k = None.
Proof.
  induction d as [|[k' v'] d IH]; simpl.
  - tauto.
  - destruct (String.eqb k k'); [split; discriminate | exact IH].
Qed.

Lemma dict_in_keys d k : dict_in k d = true <-> In k (dict_keys d).
Proof.
  induction d as [|[k' v'] d IH]; simpl.
  - split; [discriminate | tauto].
  - destruct (String.eqb_spec k k') as [->|Hne].
    + split; auto.
    + rewrite IH. split; [auto | intros [E|H]; [congruence | exact H]].
Qed.

Lemma dict_getitem_in d k :
  dict_in k d = true ->
  exists v, dict_getitem d k = inr v /\ dict_get d k = Some v.
Proof.
  intros H. apply dict_in_get in H as [v Hv]. exists v.
  unfold dict_getitem. now rewrite Hv.
Qed.

Lemma dict_get_setitem d k v k' :
  dict_get (dict_setitem d k v) k' =
  if String.eqb k' k then Some v else dict_get d k'.
Proof.
  induction d as [|[k0 v0] d IH]; simpl.
  - reflexivity.
  - destruct (String.eqb_spec k k0) as [->|Hne]; simpl.
    + now destruct (String.eqb k' k0).
    + destruct (String.eqb_spec k' k0) as [->|Hne'].
      * destruct (String.eqb_spec k0 k); [congruence | reflexivity].
      * exact IH.
Qed.

Lemma dict_in_setitem d k v k' :
  dict_in k' (dict_setitem d k v) = String.eqb k' k || dict_in k' d.
Proof.
  destruct (dict_in k' (dict_setitem d k v)) eqn:E.
  - apply dict_in_get in E as [w Hw]. rewrite dict_get_setitem in Hw.
    destruct (String.eqb k' k); [reflexivity|].
    symmetry. apply dict_in_get. now exists w.
  - apply dict_in_false_get in E. rewrite dict_get_setitem in E.
    destruct (String.eqb k' k); [discriminate|].
    symmetry. now apply dict_in_false_get.
Qed.
Lemma dict_get_In d k v : dict_get d k = Some v -> In (k, v) d.
Proof.
  induction d as [|[k' v'] d IH]; simpl; [discriminate|].
  destruct (String.eqb_spec k k') as [->|].
  - intros [= ->]. now left.
  - intros H. right. auto.
Qed.

Lemma In_dict_get d k v :
  Json.distinct (dict_keys d) = true -> In (k, v) d -> dict_get d k = Some v.
Proof.
  induction d as [|[k' v'] d IH]; simpl; [contradiction|].
  intros [Hk Hd]%andb_prop [[= -> ->]|Hin].
  - now rewrite String.eqb_refl.
  - destruct (String.eqb_spec k k') as [->|]; [|auto].
    exfalso. apply negb_true_iff in Hk.
    assert (existsb (String.eqb k') (dict_keys d) = true); [|congruence].
    apply existsb_exists. exists k'. split; [|apply String.eqb_refl].
    unfold dict_keys. now apply (in_map fst) in Hin.
Qed.
End DictFacts.

(* ===================================================================== *)
(** * The metadata shaper                                                *)
(* ===================================================================== *)

Section Shaper.
Import Py PyNotations Json MachineLearning.

Lemma has_keys_in keys (d : record) :
  has_keys keys d = true -> forall k, In k keys -> dict_in k d = true.
Proof. unfold has_keys. rewrite forallb_forall. auto. Qed.

Lemma check_keys_ok keys d :
  has_keys keys d = true -> check_keys keys d = inr tt.
Proof.
  induction keys as [|k keys IH]; simpl; [reflexivity|].
  intros [Hk Hks]%andb_prop. rewrite Hk. simpl. auto.
Qed.

Lemma check_keys_missing keys d :
  has_keys keys d = false ->
  exists k, first_missing keys d = Some k /\
            check_keys keys d = inl (Exn MissingKeyError k).
Proof.
  induction keys as [|k keys IH]; simpl; [discriminate|].
  destruct (dict_in k d); simpl; [exact IH | eauto].
Qed.

(** What [first_missing] finds: the keys before it are present, it is
    absent. *)
Lemma first_missing_spec keys d k :
  first_missing keys d = Some k ->
  exists before after,
    keys = before ++ k :: after /\
    has_keys before d = true /\ dict_in k d = false.
Proof.
  induction keys as [|k0 keys IH]; simpl; [discriminate|].
  destruct (dict_in k0 d) eqn:E; simpl.
  - intros (b & a & -> & Hb & Hk)%IH.
    exists (k0 :: b), a. simpl. now rewrite E, Hb.
  - intros [= <-]. now exists [], keys.
Qed.

Ltac fetch H k :=
  let v := fresh "v" in
  let Hg := fresh "Hg" in
  let Hv := fresh "Hv" in
  destruct (dict_getitem_in _ k (has_keys_in _ _ H k ltac:(simpl; tauto)))
    as (v & Hg & Hv);
  rewrite Hg; cbn [bind].

Ltac each_key Hk :=
  simpl in Hk;
  repeat (destruct Hk as [<-|Hk]; [simpl; congruence|]);
  destruct Hk.

(** The handler of the shapers lets the error of [json.dumps] pass. *)
Lemma try_except_dumps v h :
  try_except (dumps v) MissingKeyError h = dumps v.
Proof. unfold dumps. now destruct (unserialisable v). Qed.

Lemma build_pipeline_import_ok pipeline :
  has_keys pipeline_keys pipeline = true ->
  exists out,
    build_pipeline_import pipeline = dumps (JDict out) /\
    dict_keys out = pipeline_keys /\
    forall k, In k pipeline_keys -> dict_get out k = dict_get pipeline k.
Proof.
  intros H. unfold build_pipeline_import.
  rewrite (check_keys_ok _ _ H). cbn [bind].
  fetch H "models". fetch H "created_by". fetch H "creation_date".
  fetch H "description". fetch H "job_name". fetch H "version".
  fetch H "dataset_description". fetch H "Accuracy".
  eexists. split; [apply try_except_dumps|]. split; [reflexivity|].
  intros k Hk. each_key Hk.
Qed.

Lemma build_model_import_ok model :
  has_keys model_keys model = true ->
  exists out,
    build_model_import model = dumps (JDict out) /\
    dict_keys out = model_keys /\
    forall k, In k model_keys -> dict_get out k = dict_get model k.
Proof.
  intros H. unfold build_model_import.
  rewrite (check_keys_ok _ _ H). cbn [bind].
  fetch H "endpoint". fetch H "api_key". fetch H "content_type".
  fetch H "deployment_platform". fetch H "created_by".
  fetch H "creation_date". fetch H "description". fetch H "version".
  fetch H "job_name". fetch H "dataset_description". fetch H "Accuracy".
  eexists. split; [apply try_except_dumps|]. split; [reflexivity|].
  intros k Hk. each_key Hk.
Qed.

(** A dict whose values can all be encoded can be encoded. *)
Lemma unserialisable_dict (d : record) :
  forallb (fun kv => serialisable (snd kv)) d = true ->
  unserialisable (JDict d) = None.
Proof.
  induction d as [|[k v] d IH]; [reflexivity|].
  cbn [forallb snd]. intros [Hv Hd]%andb_prop. specialize (IH Hd).
  unfold serialisable in Hv. cbn in *.
  destruct (unserialisable v); [discriminate | exact IH].
Qed.

Lemma normalised_serialisable keys (r out : record) :
  distinct keys = true ->
  dict_keys out = keys ->
  (forall k, In k keys -> dict_get out k = dict_get r k) ->
  serialisable_on keys r = true ->
  unserialisable (JDict out) = None.
Proof.
  intros Hdist Hkeys Hget Hser. apply unserialisable_dict.
  apply forallb_forall. intros [k v] Hin. cbn [snd].
  assert (Hk : In k keys).
  { rewrite <- Hkeys. unfold dict_keys. now apply (in_map fst) in Hin. }
  apply In_dict_get in Hin; [|now rewrite Hkeys].
  rewrite (Hget k Hk) in Hin.
  unfold serialisable_on in Hser. rewrite forallb_forall in Hser.
  specialize (Hser k Hk). now rewrite Hin in Hser.
Qed.

(** C1, as the code has it: a record that holds every required key,
    each bound to a value that [json.dumps] can encode, is accepted by
    [build_pipeline_import], respectively [build_model_import],
    whatever its other fields; the text returned is the serialization
    of a record whose keys are exactly the required ones, in
    declaration order, each bound to the value the input gives it. *)
Theorem import_keeps_required_keys (e : entity) (r : record) :
  has_keys (required_keys e) r = true ->
  serialisable_on (required_keys e) r = true ->
  exists out text,
    build_import e r = inr text /\
    dumps (JDict out) = inr text /\
    dict_keys out = required_keys e /\
    forall k, In k (required_keys e) -> dict_get out k = dict_get r k.
Proof.
  intros Hkeys Hser.
  assert (Hok : exists out,
            build_import e r = dumps (JDict out) /\
            dict_keys out = required_keys e /\
            forall k, In k (required_keys e) -> dict_get out k = dict_get r k).
  { destruct e; cbn [build_import required_keys];
      [now apply build_pipeline_import_ok | now apply build_model_import_ok]. }
  destruct Hok as (out & E & Hk & Hget).
  assert (Hd : distinct (required_keys e) = true) by (destruct e; reflexivity).
  pose proof (normalised_serialisable _ r out Hd Hk Hget Hser) as Hnone.
  exists out, (string_of_list_ascii (encode (JDict out))).
  rewrite E. unfold dumps. rewrite Hnone. repeat split; assumption.
Qed.

(** A record can hold every required key and be refused all the same:
    [json.dumps] raises [TypeError] on the [date], and the handler of
    [build_pipeline_import] catches [MissingKeyError] only. *)
Lemma import_of_unserialisable_value_raises :
  has_keys pipeline_keys sample_pipeline_dated = true /\
  build_pipeline_import sample_pipeline_dated =
    inl (Exn TypeError "Object of type date is not JSON serializable").
Proof. split; reflexivity. Qed.

(** C2: a record that lacks a required key is rejected by
    [build_pipeline_import], respectively [build_model_import], with a
    [MissingKeyError] whose message names one key: the first required
    key, in declaration order, that the record lacks.  Nothing is
    serialized. *)
Theorem import_reports_first_missing_key (e : entity) (r : record) :
  has_keys (required_keys e) r = false ->
  exists k before after,
    required_keys e = before ++ k :: after /\
    has_keys before r = true /\
    dict_in k r = false /\
    first_missing (required_keys e) r = Some k /\
    build_import e r = inl (Exn MissingKeyError ("Missing key: " ++ k)).
Proof.
  intros H.
  destruct (check_keys_missing _ _ H) as (k & Hk & Hc).
  destruct (first_missing_spec _ _ _ Hk) as (b & a & E & Hb & Hn).
  exists k, b, a. repeat (split; [assumption|]).
  destruct e; cbn [build_import required_keys] in *.
  - unfold build_pipeline_import. rewrite Hc. reflexivity.
  - unfold build_model_import. rewrite Hc. reflexivity.
Qed.

Lemma import_keeps_required_keys_witness :
  (exists out text,
     build_pipeline_import (sample_pipeline ++ [("extra", JOther "set")])
       = inr text /\
     dumps (JDict out) = inr text /\
     dict_keys out = pipeline_keys /\
     forall k, In k pipeline_keys ->
       dict_get out k
       = dict_get (sample_pipeline ++ [("extra", JOther "set")]) k) /\
  (exists out text,
     build_model_import sample_model = inr text /\
     dumps (JDict out) = inr text /\
     dict_keys out = model_keys /\
     forall k, In k model_keys -> dict_get out k = dict_get sample_model k).
Proof.
  split.
  - apply (import_keeps_required_keys Pipeline); reflexivity.
  - apply (import_keeps_required_keys Model); reflexivity.
Defined.

Lemma import_reports_first_missing_key_witness :
  exists k before after,
    pipeline_keys = before ++ k :: after /\
    has_keys before sample_pipeline_incomplete = true /\
    dict_in k sample_pipeline_incomplete = false /\
    first_missing pipeline_keys sample_pipeline_incomplete = Some k /\
    build_pipeline_import sample_pipeline_incomplete =
      inl (Exn MissingKeyError ("Missing key: " ++ k)).
Proof.
  apply (import_reports_first_missing_key Pipeline). reflexivity.
Defined.

(** The two keys [sample_pipeline_incomplete] lacks are [version] and
    [Accuracy]; the error names [version], the earlier one. *)
Example import_names_version :
  build_pipeline_import sample_pipeline_incomplete =
    inl (Exn MissingKeyError "Missing key: version").
Proof. reflexivity. Qed.

(** ** Export *)

Lemma existsb_keys (d : record) k :
  existsb (String.eqb k) (dict_keys d) = dict_in k d.
Proof.
  induction d as [|[k' v'] d IH]; simpl; [reflexivity|].
  rewrite IH. now destruct (String.eqb k k').
Qed.

Lemma copy_fields_total (data : record) keys db :
  (forall k, In k keys -> dict_in k data = true) ->
  copy_fields keys data db = inr (fold_left (assign data) keys db).
Proof.
  revert db. induction keys as [|k keys IH]; intros db H; simpl.
  - reflexivity.
  - destruct (dict_getitem_in data k (H k (or_introl eq_refl)))
      as (v & Hg & Hv).
    rewrite Hg. cbn [bind]. rewrite IH by (intros; apply H; now right).
    unfold assign at 3. now rewrite Hv.
Qed.

Lemma fold_assign_get (data : record) keys db k :
  (forall k, In k keys -> dict_in k data = true) ->
  dict_get (fold_left (assign data) keys db) k =
  if existsb (String.eqb k) keys then dict_get data k else dict_get db k.
Proof.
  revert db. induction keys as [|k0 keys IH]; intros db H; simpl.
  - reflexivity.
  - rewrite IH by (intros; apply H; now right).
    destruct (dict_getitem_in data k0 (H k0 (or_introl eq_refl)))
      as (v & _ & Hv).
    unfold assign. rewrite Hv, dict_get_setitem.
    destruct (String.eqb_spec k k0) as [->|Hne]; simpl.
    + rewrite Hv. now destruct (existsb _ keys).
    + reflexivity.
Qed.

Lemma copy_fields_overlay (base data : record) :
  copy_fields (dict_keys data) data base = inr (overlay base data).
Proof.
  apply copy_fields_total. intros k. apply dict_in_keys.
Qed.

Lemma overlay_get (base data : record) k :
  dict_get (overlay base data) k =
  match dict_get data k with
  | Some v => Some v
  | None => dict_get base k
  end.
Proof.
  unfold overlay.
  rewrite fold_assign_get by (intros k'; apply dict_in_keys).
  rewrite existsb_keys.
  destruct (dict_in k data) eqn:E.
  - apply dict_in_get in E as [v ->]. reflexivity.
  - apply dict_in_false_get in E. now rewrite E.
Qed.

Lemma overlay_in (base data : record) k :
  dict_in k (overlay base data) = dict_in k base || dict_in k data.
Proof.
  destruct (dict_in k (overlay base data)) eqn:E.
  - apply dict_in_get in E as [v Hv]. rewrite overlay_get in Hv.
    destruct (dict_get data k) eqn:Hd.
    + assert (dict_in k data = true) as -> by (apply dict_in_get; eauto).
      now rewrite orb_true_r.
    + assert (dict_in k base = true) as -> by (apply dict_in_get; eauto).
      reflexivity.
  - apply dict_in_false_get in E. rewrite overlay_get in E.
    destruct (dict_get data k) eqn:Hd; [discriminate|].
    apply dict_in_false_get in E, Hd. now rewrite E, Hd.
Qed.

(** C6: [build_pipeline_export] and [build_model_export] always return
    a record: the dict of the identifying fields ([models],
    [pipeline_id] as [str(id)], [pipeline_name], [default];
    respectively [model_id] as [str(id)], [model_name],
    [endpoint_name], [task], [version]) with every field of the stored
    record assigned on top of it.  A key of the stored record is bound
    to the stored record's value (also when it is an identifying field),
    any other key is bound as in the dict of identifying fields, and
    the keys of the result are those of both. *)
Theorem export_overlays_stored_record {Id : Type} `{Str Id}
    (data : record) (id : Id) (default : bool) (model_ids : value)
    (name endpoint task_name version : string) :
  let merged base out :=
    out = overlay base data /\
    (forall k v, dict_get data k = Some v -> dict_get out k = Some v) /\
    (forall k, dict_get data k = None -> dict_get out k = dict_get base k) /\
    (forall k, dict_in k out = dict_in k base || dict_in k data) in
  (exists out,
     build_pipeline_export data name id default model_ids = inr out /\
     merged [("models", model_ids);
             ("pipeline_id", JStr (str id));
             ("pipeline_name", JStr name);
             ("default", JBool default)] out) /\
  (exists out,
     build_model_export data id name endpoint task_name version = inr out /\
     merged [("model_id", JStr (str id));
             ("model_name", JStr name);
             ("endpoint_name", JStr endpoint);
             ("task", JStr task_name);
             ("version", JStr version)] out).
Proof.
  intros merged.
  assert (Hm : forall base, merged base (overlay base data)).
  { intros base. unfold merged. split; [reflexivity|].
    split; [|split].
    - intros k v Hk. now rewrite overlay_get, Hk.
    - intros k Hk. now rewrite overlay_get, Hk.
    - intros k. apply overlay_in. }
  split; eexists; (split; [apply copy_fields_overlay | apply Hm]).
Qed.

(** The sample model has a [version] of its own, 3, and no [model_id]:
    the export binds [version] to 3 and [model_id] to the id given. *)
Lemma export_overlays_stored_record_witness :
  exists out,
    build_model_export sample_model 8%Z "m" "e" "t" "9" = inr out /\
    dict_get out "version" = Some (JInt 3) /\
    dict_get out "model_id" = Some (JStr "8") /\
    dict_get out "model_name" = Some (JStr "seed-detector") /\
    dict_get out "endpoint_name" = Some (JStr "e") /\
    dict_get out "task" = Some (JStr "t") /\
    dict_in "default" out = false.
Proof.
  destruct (export_overlays_stored_record sample_model 8%Z true JNull
              "m" "e" "t" "9") as [_ (out & E & _ & Hdata & Hbase & Hin)].
  exists out. split; [exact E|].
  split; [apply Hdata; reflexivity|].
  split; [rewrite Hbase; reflexivity|].
  split; [apply Hdata; reflexivity|].
  split; [rewrite Hbase; reflexivity|].
  split; [rewrite Hbase; reflexivity|].
  rewrite Hin. reflexivity.
Defined.
End Shaper.

(* ===================================================================== *)
(** * [json.loads] reads back what [json.dumps] writes                   *)
(* ===================================================================== *)

Section Numbers.
Import Json.

Lemma span_app p tok rest :
  forallb p tok = true -> stops p rest -> span p (tok ++ rest) = (tok, rest).
Proof.
  intros Htok Hrest. induction tok as [|c tok IH]; simpl in *.
  - destruct rest as [|c rest]; [reflexivity|]. simpl in *.
    now rewrite Hrest.
  - apply andb_prop in Htok as [Hc Htok]. now rewrite Hc, IH.
Qed.

Lemma is_digit_num_char c : is_digit c = true -> is_num_char c = true.
Proof. unfold is_num_char. now intros ->. Qed.

Lemma consumed_refl s : consumed s s.
Proof. now exists []. Qed.

Lemma consumed_cons c s r :
  is_num_char c = true -> consumed s r -> consumed (c :: s) r.
Proof.
  intros Hc (pre & -> & Hpre). exists (c :: pre). simpl. now rewrite Hc.
Qed.

Lemma consumed_trans s r t : consumed s r -> consumed r t -> consumed s t.
Proof.
  intros (p1 & -> & H1) (p2 & -> & H2). exists (p1 ++ p2).
  now rewrite <- app_assoc, forallb_app, H1, H2.
Qed.

Lemma skip_digits_consumed s : consumed s (skip_digits s).
Proof.
  induction s as [|c s IH]; simpl; [apply consumed_refl|].
  destruct (is_digit c) eqn:E; [|apply consumed_refl].
  apply consumed_cons; [now apply is_digit_num_char | exact IH].
Qed.

Lemma digits1_consumed s r : digits1 s = Some r -> consumed s r.
Proof.
  destruct s as [|c s]; simpl; [discriminate|].
  destruct (is_digit c) eqn:E; [|discriminate]. intros [= <-].
  apply consumed_cons; [now apply is_digit_num_char|].
  apply skip_digits_consumed.
Qed.

Lemma eqb_num_char c (x : ascii) :
  is_num_char x = true -> Ascii.eqb c x = true -> is_num_char c = true.
Proof. intros Hx ->%Ascii.eqb_eq. exact Hx. Qed.

Lemma int_part_consumed s r : int_part s = Some r -> consumed s r.
Proof.
  unfold int_part.
  assert (Hu : forall u, match u with
                         | c :: s' =>
                             if Ascii.eqb c "0" then Some s'
                             else if is_digit c then Some (skip_digits s')
                             else None
                         | [] => None
                         end = Some r -> consumed u r).
  { intros [|c u]; [discriminate|].
    destruct (Ascii.eqb c "0") eqn:E0.
    - intros [= <-]. apply consumed_cons; [|apply consumed_refl].
      now apply (eqb_num_char c "0"%char).
    - destruct (is_digit c) eqn:Ed; [|discriminate]. intros [= <-].
      apply consumed_cons; [now apply is_digit_num_char|].
      apply skip_digits_consumed. }
  destruct s as [|c s]; [discriminate|].
  destruct (Ascii.eqb c "-") eqn:Em; [|apply (Hu (c :: s))].
  intros H. apply consumed_cons; [|now apply Hu].
  now apply (eqb_num_char c "-"%char).
Qed.

Lemma frac_part_consumed s b r : frac_part s = Some (b, r) -> consumed s r.
Proof.
  destruct s as [|c s]; simpl.
  - intros [= <- <-]. apply consumed_refl.
  - destruct (Ascii.eqb c ".") eqn:E.
    + destruct (digits1 s) as [r'|] eqn:Hd; [|discriminate].
      intros [= <- <-]. apply consumed_cons.
      * now apply (eqb_num_char c "."%char).
      * now apply digits1_consumed.
    + intros [= <- <-]. apply consumed_refl.
Qed.

Lemma exp_part_consumed s b r : exp_part s = Some (b, r) -> consumed s r.
Proof.
  destruct s as [|c s]; simpl.
  - intros [= <- <-]. apply consumed_refl.
  - destruct (Ascii.eqb c "e" || Ascii.eqb c "E") eqn:E.
    + assert (Hc : is_num_char c = true).
      { unfold is_num_char. apply orb_prop in E as [-> | ->];
          now rewrite ?orb_true_r. }
      destruct s as [|c' s]; [discriminate|].
      destruct (is_sign c') eqn:Es.
      * destruct (digits1 s) as [r'|] eqn:Hd; [|discriminate].
        intros [= <- <-]. apply consumed_cons; [exact Hc|].
        apply consumed_cons; [|now apply digits1_consumed].
        unfold is_num_char. now rewrite Es, orb_true_r.
      * destruct (digits1 (c' :: s)) as [r'|] eqn:Hd; [|discriminate].
        intros [= <- <-]. apply consumed_cons; [exact Hc|].
        now apply digits1_consumed.
    + intros [= <- <-]. apply consumed_refl.
Qed.

(** A number is made of number characters. *)
Lemma classify_number_chars tok k :
  classify_number tok = Some k -> forallb is_num_char tok = true.
Proof.
  unfold classify_number.
  destruct (int_part tok) as [r1|] eqn:H1; [|discriminate].
  destruct (frac_part r1) as [[f r2]|] eqn:H2; [|discriminate].
  destruct (exp_part r2) as [[e [|? ?]]|] eqn:H3; try discriminate.
  intros _.
  apply int_part_consumed in H1. apply frac_part_consumed in H2.
  apply exp_part_consumed in H3.
  destruct (consumed_trans _ _ _ H1 (consumed_trans _ _ _ H2 H3))
    as (pre & -> & Hpre).
  now rewrite app_nil_r.
Qed.

(** A number starts with a digit or a minus sign. *)
Lemma classify_number_head tok k :
  classify_number tok = Some k ->
  exists c tl, tok = c :: tl /\ (is_digit c || Ascii.eqb c "-") = true.
Proof.
  unfold classify_number, int_part.
  destruct tok as [|c tl]; [discriminate|]. intros H.
  exists c, tl. split; [reflexivity|].
  destruct (Ascii.eqb c "-"); [now rewrite orb_true_r|].
  destruct (Ascii.eqb c "0") eqn:E0.
  - apply Ascii.eqb_eq in E0 as ->. reflexivity.
  - destruct (is_digit c); [reflexivity | discriminate].
Qed.
End Numbers.

Section Integers.
Import Json.

Lemma skip_digits_all ds : forallb is_digit ds = true -> skip_digits ds = [].
Proof.
  induction ds as [|c ds IH]; simpl; [reflexivity|].
  intros [-> H]%andb_prop. auto.
Qed.

Lemma classify_digits c ds :
  is_digit c = true -> Ascii.eqb c "0" = false ->
  forallb is_digit ds = true ->
  classify_number (c :: ds) = Some IsInt /\
  classify_number ("-"%char :: c :: ds) = Some IsInt.
Proof.
  intros Hc H0 Hds.
  assert (Hm : Ascii.eqb c "-" = false).
  { destruct (Ascii.eqb_spec c "-") as [->|]; [discriminate | reflexivity]. }
  unfold classify_number, int_part. cbn [Ascii.eqb Bool.eqb].
  rewrite Hm, H0, Hc, (skip_digits_all _ Hds). split; reflexivity.
Qed.

Lemma uint_digits u :
  forallb is_digit (list_ascii_of_string (NilEmpty.string_of_uint u)) = true.
Proof. induction u; simpl; auto. Qed.

(** A positive number is written with a nonzero leading digit. *)
Lemma to_uint_leading p :
  exists c ds,
    list_ascii_of_string (NilZero.string_of_uint (Pos.to_uint p)) = c :: ds /\
    is_digit c = true /\ Ascii.eqb c "0" = false /\
    forallb is_digit ds = true.
Proof.
  pose proof (DecimalPos.Unsigned.to_uint_nonzero p) as Hnz.
  pose proof (DecimalPos.Unsigned.to_uint_nonnil p) as Hnn.
  assert (Hn : Decimal.unorm (Pos.to_uint p) = Pos.to_uint p).
  { rewrite <- (DecimalN.Unsigned.to_of (Pos.to_uint p)).
    change (N.of_uint (Pos.to_uint p)) with (Pos.of_uint (Pos.to_uint p)).
    now rewrite DecimalPos.Unsigned.of_to. }
  destruct (Pos.to_uint p) as [|u|u|u|u|u|u|u|u|u|u] eqn:E;
    try (eexists _, _; cbn;
         split; [reflexivity|];
         split; [reflexivity|];
         split; [reflexivity | apply uint_digits]).
  - contradiction.
  - exfalso. unfold Decimal.unorm in Hn. rewrite DecimalFacts.nzhead_D0 in Hn.
    destruct (Decimal.nzhead u) eqn:Hu; try discriminate.
    + apply Hnz. symmetry. exact Hn.
    + exact (DecimalFacts.nzhead_nonzero _ _ Hu).
Qed.

(** The text of an integer is an int token that reads back as that
    integer. *)
Lemma int_token z :
  let tok := list_ascii_of_string (NilZero.string_of_int (Z.to_int z)) in
  classify_number tok = Some IsInt /\
  NilZero.int_of_string (string_of_list_ascii tok) = Some (Z.to_int z).
Proof.
  cbv zeta. rewrite string_of_list_ascii_of_string. split.
  - destruct z as [|p|p]; cbn [Z.to_int NilZero.string_of_int].
    + reflexivity.
    + destruct (to_uint_leading p) as (c & ds & -> & Hc & H0 & Hds).
      now apply classify_digits.
    + cbn [list_ascii_of_string].
      destruct (to_uint_leading p) as (c & ds & -> & Hc & H0 & Hds).
      now apply classify_digits.
  - apply NilZero.isi; destruct z as [|p|p]; cbn; try discriminate;
      intros [= E]; now apply (DecimalPos.Unsigned.to_uint_nonnil p).
Qed.
End Integers.

Section Strings.
Import Json.

(** Reading one written character gives the character back, whichever
    of the 256 it is. *)
Lemma scan_escape_char c rest :
  scan_string (escape_char c ++ rest) = push c (scan_string rest).
Proof.
  destruct c as [b0 b1 b2 b3 b4 b5 b6 b7].
  destruct b0, b1, b2, b3, b4, b5, b6, b7; reflexivity.
Qed.

Lemma scan_escaped cs rest :
  scan_string (flat_map escape_char cs ++ quote :: rest) = Some (cs, rest).
Proof.
  induction cs as [|c cs IH]; simpl.
  - reflexivity.
  - now rewrite <- app_assoc, scan_escape_char, IH.
Qed.

(** A string literal, without its opening quote, reads back. *)
Lemma scan_encode_string s rest :
  exists body,
    encode_string s ++ rest = quote :: body /\
    scan_string body = Some (list_ascii_of_string s, rest).
Proof.
  unfold encode_string. eexists. split.
  - simpl. rewrite <- app_assoc. reflexivity.
  - apply scan_escaped.
Qed.
End Strings.

Section Documents.
Import Json.

(** ** One step of each parser *)

Lemma parse_value_space fuel s :
  parse_value fuel (" "%char :: s) = parse_value fuel s.
Proof. destruct fuel; reflexivity. Qed.

Lemma parse_elements_step fuel s :
  parse_elements (S fuel) s =
  match parse_value fuel s with
  | None => None
  | Some (v, r) =>
      match skip_ws r with
      | c :: r1 =>
          if Ascii.eqb c "," then
            match parse_elements fuel r1 with
            | Some (vs, r2) => Some (v :: vs, r2)
            | None => None
            end
          else if Ascii.eqb c "]" then Some ([v], r1)
          else None
      | [] => None
      end
  end.
Proof. reflexivity. Qed.

Lemma parse_elements_space fuel s :
  parse_elements fuel (" "%char :: s) = parse_elements fuel s.
Proof.
  destruct fuel; [reflexivity|].
  now rewrite !parse_elements_step, parse_value_space.
Qed.

Lemma parse_members_space fuel s :
  parse_members fuel (" "%char :: s) = parse_members fuel s.
Proof. destruct fuel; reflexivity. Qed.

Lemma parse_value_number fuel c s :
  (is_digit c || Ascii.eqb c "-") = true ->
  parse_value (S fuel) (c :: s) = scan_number (c :: s).
Proof.
  intros H.
  assert (Hws : is_ws c = false).
  { apply orb_prop in H as [H|H].
    - unfold is_ws.
      destruct (Ascii.eqb_spec c " ") as [->|]; [discriminate|].
      destruct (Ascii.eqb_spec c "009") as [->|]; [discriminate|].
      destruct (Ascii.eqb_spec c "010") as [->|]; [discriminate|].
      destruct (Ascii.eqb_spec c "013") as [->|]; [discriminate|].
      reflexivity.
    - apply Ascii.eqb_eq in H as ->. reflexivity. }
  cbn [parse_value skip_ws]. now rewrite Hws, H.
Qed.

Lemma parse_value_string fuel body :
  parse_value (S fuel) (quote :: body) =
  match scan_string body with
  | Some (cs, rest) => Some (JStr (string_of_list_ascii cs), rest)
  | None => None
  end.
Proof. reflexivity. Qed.

Lemma digit_opens c tl :
  (is_digit c || Ascii.eqb c "-") = true -> opens (c :: tl).
Proof.
  intros H. exists c, tl. split; [reflexivity|].
  apply orb_prop in H as [H|H].
  - unfold is_ws.
    destruct (Ascii.eqb_spec c " ") as [->|]; [discriminate|].
    destruct (Ascii.eqb_spec c "009") as [->|]; [discriminate|].
    destruct (Ascii.eqb_spec c "010") as [->|]; [discriminate|].
    destruct (Ascii.eqb_spec c "013") as [->|]; [discriminate|].
    destruct (Ascii.eqb_spec c "]") as [->|]; [discriminate|].
    destruct (Ascii.eqb_spec c "}") as [->|]; [discriminate|].
    repeat split.
  - apply Ascii.eqb_eq in H as ->. repeat split.
Qed.

Lemma encode_opens v rest : wf v = true -> opens (encode v ++ rest).
Proof.
  destruct v as [|[|]|z|r|s|l|d|l|ty]; cbn [encode wf]; intros Hwf;
    try discriminate;
    try (eexists _, _; repeat split; fail).
  - destruct (int_token z) as [Hk _].
    destruct (classify_number_head _ _ Hk) as (c & tl & -> & Hc).
    now apply digit_opens.
  - unfold is_float_repr in Hwf.
    destruct (classify_number (list_ascii_of_string r)) as [[|]|] eqn:Hk;
      try discriminate.
    destruct (classify_number_head _ _ Hk) as (c & tl & -> & Hc).
    now apply digit_opens.
Qed.

Lemma parse_value_list fuel s :
  opens s ->
  parse_value (S fuel) ("["%char :: s) =
  match parse_elements fuel s with
  | Some (l, rest) => Some (JList l, rest)
  | None => None
  end.
Proof.
  intros (c & tl & -> & Hws & Hl & _).
  cbn [parse_value skip_ws]. cbn. now rewrite Hws, Hl.
Qed.

Lemma parse_value_dict fuel s :
  opens s ->
  parse_value (S fuel) ("{"%char :: s) =
  match parse_members fuel s with
  | Some (d, rest) => Some (JDict (dict_of_pairs d), rest)
  | None => None
  end.
Proof.
  intros (c & tl & -> & Hws & _ & Hd).
  cbn [parse_value skip_ws]. cbn. now rewrite Hws, Hd.
Qed.

Lemma parse_members_step fuel s :
  parse_members (S fuel) s =
  match skip_ws s with
  | q :: s1 =>
      if Ascii.eqb q quote then
        match scan_string s1 with
        | None => None
        | Some (k, r) =>
            match skip_ws r with
            | c :: r1 =>
                if Ascii.eqb c ":" then
                  match parse_value fuel r1 with
                  | None => None
                  | Some (v, r2) =>
                      match skip_ws r2 with
                      | c' :: r3 =>
                          if Ascii.eqb c' "," then
                            match parse_members fuel r3 with
                            | Some (ms, r4) =>
                                Some ((string_of_list_ascii k, v) :: ms, r4)
                            | None => None
                            end
                          else if Ascii.eqb c' "}" then
                            Some ([(string_of_list_ascii k, v)], r3)
                          else None
                      | [] => None
                      end
                  end
                else None
            | [] => None
            end
        end
      else None
  | [] => None
  end.
Proof. reflexivity. Qed.

(** Reading one member: its key, the colon, then its value. *)
Lemma parse_members_member fuel k s :
  parse_members (S fuel) (encode_string k ++ key_sep ++ s) =
  match parse_value fuel s with
  | None => None
  | Some (v, r2) =>
      match skip_ws r2 with
      | c' :: r3 =>
          if Ascii.eqb c' "," then
            match parse_members fuel r3 with
            | Some (ms, r4) => Some ((k, v) :: ms, r4)
            | None => None
            end
          else if Ascii.eqb c' "}" then Some ([(k, v)], r3)
          else None
      | [] => None
      end
  end.
Proof.
  destruct (scan_encode_string k (key_sep ++ s)) as (body & E & Hscan).
  rewrite parse_members_step, E.
  change (skip_ws (quote :: body)) with (quote :: body).
  change (Ascii.eqb quote quote) with true. cbv iota.
  rewrite Hscan. cbn [key_sep list_ascii_of_string app skip_ws].
  change (is_ws ":") with false. cbv iota.
  change (Ascii.eqb ":" ":") with true. cbv iota.
  now rewrite parse_value_space, string_of_list_ascii_of_string.
Qed.

(** ** The round trip *)

Lemma elements_read_back l :
  Forall reads_back l -> forallb wf l = true -> l <> [] ->
  forall fuel rest,
    list_sum (map (fun x => S (need x)) l) <= fuel ->
    parse_elements fuel (join item_sep (map encode l) ++ "]"%char :: rest)
    = Some (l, rest).
Proof.
  induction l as [|v l IH]; intros HP Hwf Hne fuel rest Hfuel;
    [contradiction|].
  inversion HP as [|? ? Hv Hl]; subst.
  cbn [forallb] in Hwf. apply andb_prop in Hwf as [Hwv Hwl].
  cbn [map list_sum fold_right] in Hfuel.
  destruct fuel as [|fuel]; [lia|]. rewrite parse_elements_step.
  destruct l as [|v2 l].
  - cbn [map join]. rewrite (Hv Hwv) by (cbn in *; first [lia | reflexivity]).
    reflexivity.
  - change (join item_sep (map encode (v :: v2 :: l)))
      with (encode v ++ item_sep ++ join item_sep (map encode (v2 :: l))).
    rewrite <- !app_assoc.
    rewrite (Hv Hwv) by (cbn in *; first [lia | reflexivity]).
    cbn [item_sep list_ascii_of_string app skip_ws].
    change (is_ws ",") with false. cbv iota.
    change (Ascii.eqb "," ",") with true. cbv iota.
    rewrite parse_elements_space.
    rewrite IH; [reflexivity | assumption | assumption | discriminate |].
    cbn [map list_sum fold_right] in *. lia.
Qed.

Lemma members_read_back d :
  Forall (fun kv => reads_back (snd kv)) d ->
  forallb (fun kv => wf (snd kv)) d = true -> d <> [] ->
  forall fuel rest,
    list_sum (map (fun kv => S (need (snd kv))) d) <= fuel ->
    parse_members fuel
      (join item_sep
         (map (fun kv => encode_string (fst kv) ++ key_sep ++ encode (snd kv))
            d)
       ++ "}"%char :: rest)
    = Some (d, rest).
Proof.
  induction d as [|[k v] d IH]; intros HP Hwf Hne fuel rest Hfuel;
    [contradiction|].
  inversion HP as [|? ? Hv Hd]; subst. cbn [snd] in Hv.
  cbn [forallb snd] in Hwf. apply andb_prop in Hwf as [Hwv Hwd].
  cbn [map list_sum fold_right snd] in Hfuel.
  destruct fuel as [|fuel]; [lia|].
  destruct d as [|kv2 d].
  - cbn [map join fst snd]. rewrite <- !app_assoc.
    rewrite parse_members_member.
    rewrite (Hv Hwv) by (cbn in *; first [lia | reflexivity]).
    reflexivity.
  - set (member := fun kv : string * value =>
                     encode_string (fst kv) ++ key_sep ++ encode (snd kv)).
    change (join item_sep (map member ((k, v) :: kv2 :: d)))
      with ((encode_string k ++ key_sep ++ encode v)
            ++ item_sep ++ join item_sep (map member (kv2 :: d))).
    rewrite <- !app_assoc.
    rewrite parse_members_member.
    rewrite (Hv Hwv) by (cbn in *; first [lia | reflexivity]).
    cbn [item_sep list_ascii_of_string app skip_ws].
    change (is_ws ",") with false. cbv iota.
    change (Ascii.eqb "," ",") with true. cbv iota.
    rewrite parse_members_space.
    rewrite IH; [reflexivity | assumption | assumption | discriminate |].
    cbn [map list_sum fold_right] in *. lia.
Qed.

(** [dict] keeps pairs whose keys are distinct as they are. *)
Lemma dict_setitem_fresh {V} (d : Py.dict V) k v :
  existsb (String.eqb k) (Py.dict_keys d) = false ->
  Py.dict_setitem d k v = d ++ [(k, v)].
Proof.
  induction d as [|[k' v'] d IH]; simpl; [reflexivity|].
  intros [Hk Hd]%orb_false_elim. rewrite Hk. now rewrite IH.
Qed.

Lemma fold_setitem_distinct (pairs acc : list (string * value)) :
  distinct (map fst acc ++ map fst pairs) = true ->
  fold_left (fun d kv => Py.dict_setitem d (fst kv) (snd kv)) pairs acc
  = acc ++ pairs.
Proof.
  revert acc. induction pairs as [|[k v] pairs IH]; intros acc Hd; simpl.
  - now rewrite app_nil_r.
  - assert (Hk : existsb (String.eqb k) (Py.dict_keys acc) = false).
    { clear IH. unfold Py.dict_keys.
      induction acc as [|[k' v'] acc IHa]; simpl in *; [reflexivity|].
      apply andb_prop in Hd as [Hk' Hd].
      rewrite (IHa Hd), orb_false_r.
      apply negb_true_iff in Hk'. rewrite existsb_app in Hk'.
      apply orb_false_elim in Hk' as [_ Hk']. simpl in Hk'.
      apply orb_false_elim in Hk' as [Hk' _].
      now rewrite String.eqb_sym. }
    rewrite (dict_setitem_fresh _ _ _ Hk), IH.
    + now rewrite <- app_assoc.
    + rewrite map_app. simpl. now rewrite <- app_assoc.
Qed.

Lemma dict_of_pairs_distinct d :
  distinct (map fst d) = true -> dict_of_pairs d = d.
Proof. intros H. unfold dict_of_pairs. now rewrite fold_setitem_distinct. Qed.

Lemma parse_value_encode v : reads_back v.
Proof.
  induction v as [|b|z|r|s|l IH|d IH|l|ty] using value_induction;
    intros Hwf fuel rest Hfuel Hrest;
    try discriminate;
    (destruct fuel as [|fuel]; [cbn in Hfuel; lia|]).
  - reflexivity.
  - destruct b; reflexivity.
  - cbn [encode]. destruct (int_token z) as [Hk Hz].
    destruct (classify_number_head _ _ Hk) as (c & tl & E & Hc).
    rewrite E in *. cbn [app]. rewrite (parse_value_number _ _ _ Hc).
    unfold scan_number. change (c :: tl ++ rest) with ((c :: tl) ++ rest).
    rewrite (span_app _ _ _ (classify_number_chars _ _ Hk) Hrest).
    now rewrite Hk, Hz, DecimalZ.of_to.
  - cbn [encode]. cbn [wf] in Hwf. unfold is_float_repr in Hwf.
    destruct (classify_number (list_ascii_of_string r)) as [[|]|] eqn:Hk;
      try discriminate.
    destruct (classify_number_head _ _ Hk) as (c & tl & E & Hc).
    rewrite E in Hk. rewrite <- (string_of_list_ascii_of_string r) at 2.
    rewrite E. cbn [app]. rewrite (parse_value_number _ _ _ Hc).
    unfold scan_number. change (c :: tl ++ rest) with ((c :: tl) ++ rest).
    rewrite (span_app _ _ _ (classify_number_chars _ _ Hk) Hrest).
    now rewrite Hk.
  - cbn [encode].
    destruct (scan_encode_string s rest) as (body & E & Hscan).
    rewrite E, parse_value_string, Hscan.
    now rewrite string_of_list_ascii_of_string.
  - cbn [wf] in Hwf. cbn [need] in Hfuel. cbn [encode app].
    rewrite <- app_assoc. cbn [app].
    destruct l as [|v l]; [reflexivity|].
    rewrite parse_value_list.
    + rewrite elements_read_back;
        [reflexivity | assumption | assumption | discriminate | lia].
    + cbn [map]. destruct l as [|v2 l].
      * cbn [join]. apply encode_opens.
        cbn in Hwf. now apply andb_prop in Hwf as [-> _].
      * change (join item_sep (encode v :: map encode (v2 :: l)))
          with (encode v ++ item_sep ++ join item_sep (map encode (v2 :: l))).
        rewrite <- app_assoc. apply encode_opens.
        cbn in Hwf. now apply andb_prop in Hwf as [-> _].
  - cbn [wf] in Hwf. apply andb_prop in Hwf as [Hdist Hwf].
    cbn [need] in Hfuel. cbn [encode app].
    rewrite <- app_assoc. cbn [app].
    destruct d as [|[k v] d]; [reflexivity|].
    rewrite parse_value_dict.
    + rewrite members_read_back;
        [| assumption | assumption | discriminate | lia].
      now rewrite (dict_of_pairs_distinct _ Hdist).
    + destruct (scan_encode_string k []) as (body & E & _).
      unfold encode_string in *. cbn [map fst snd].
      destruct d as [|kv2 d]; cbn [join app];
        eexists _, _; (split; [reflexivity|]); repeat split.
Qed.

(** ** The fuel [loads] gives is enough *)

Lemma elements_need l :
  Forall (fun x => need x <= S (length (encode x))) l ->
  list_sum (map (fun x => S (need x)) l)
  <= length (join item_sep (map encode l)) + 2.
Proof.
  induction l as [|v l IH]; intros H; [cbn; lia|].
  inversion H as [|? ? Hv Hl]; subst. specialize (IH Hl).
  destruct l as [|v2 l].
  - cbn [map list_sum fold_right join]. lia.
  - change (join item_sep (map encode (v :: v2 :: l)))
      with (encode v ++ item_sep ++ join item_sep (map encode (v2 :: l))).
    rewrite !length_app. cbn [map list_sum fold_right] in *.
    change (length item_sep) with 2. lia.
Qed.

Lemma members_need (d : list (string * value)) :
  Forall (fun kv => need (snd kv) <= S (length (encode (snd kv)))) d ->
  list_sum (map (fun kv => S (need (snd kv))) d)
  <= length
       (join item_sep
          (map (fun kv => encode_string (fst kv) ++ key_sep ++ encode (snd kv))
             d)) + 2.
Proof.
  induction d as [|[k v] d IH]; intros H; [cbn; lia|].
  inversion H as [|? ? Hv Hd]; subst. specialize (IH Hd). cbn [snd] in Hv.
  set (member := fun kv : string * value =>
                   encode_string (fst kv) ++ key_sep ++ encode (snd kv)) in *.
  destruct d as [|kv2 d].
  - cbn [map list_sum fold_right join snd]. unfold member. cbn [fst snd].
    rewrite !length_app. lia.
  - change (join item_sep (map member ((k, v) :: kv2 :: d)))
      with (member (k, v) ++ item_sep ++ join item_sep (map member (kv2 :: d))).
    unfold member at 1. cbn [fst snd].
    rewrite !length_app. cbn [map list_sum fold_right snd] in *.
    change (length item_sep) with 2. lia.
Qed.

Lemma need_length v : need v <= S (length (encode v)).
Proof.
  induction v as [|b|z|r|s|l IH|d IH|l|ty] using value_induction;
    try (cbn [need]; lia).
  - cbn [need encode length]. rewrite length_app. cbn [length].
    pose proof (elements_need l IH). lia.
  - cbn [need encode length]. rewrite length_app. cbn [length].
    pose proof (members_need d IH). lia.
Qed.

(** A well-formed document can be encoded. *)
Lemma wf_serialisable v : wf v = true -> unserialisable v = None.
Proof.
  induction v as [|b|z|r|s|l IH|d IH|l|ty] using value_induction;
    cbn [wf]; try discriminate; try reflexivity; intros Hwf.
  - induction l as [|x l IHl]; [reflexivity|].
    inversion IH as [|? ? Hx Hl]; subst.
    cbn [forallb] in Hwf. apply andb_prop in Hwf as [Hwx Hwl].
    specialize (IHl Hl Hwl). cbn in *. now rewrite (Hx Hwx).
  - apply andb_prop in Hwf as [_ Hwf].
    induction d as [|kv d IHd]; [reflexivity|].
    inversion IH as [|? ? Hx Hd]; subst.
    cbn [forallb] in Hwf. apply andb_prop in Hwf as [Hwx Hwd].
    specialize (IHd Hd Hwd). cbn in *. now rewrite (Hx Hwx).
Qed.

(** [json.loads(json.dumps(v)) == v] for every well-formed document. *)
Lemma loads_dumps v :
  wf v = true ->
  exists text, dumps v = inr text /\ loads text = Some v.
Proof.
  intros Hwf. exists (string_of_list_ascii (encode v)). split.
  - unfold dumps. now rewrite (wf_serialisable v Hwf).
  - unfold loads. rewrite list_ascii_of_string_of_list_ascii.
    rewrite <- (app_nil_r (encode v)) at 2.
    rewrite (parse_value_encode v Hwf) by (try apply need_length; exact I).
    reflexivity.
Qed.
End Documents.

(* ===================================================================== *)
(** * Import, then parse                                                 *)
(* ===================================================================== *)

Section RoundTrip.
Import Py Json MachineLearning.

Lemma restrict_get keys (d : record) k :
  dict_get (restrict keys d) k =
  if existsb (String.eqb k) keys then dict_get d k else None.
Proof.
  unfold restrict. induction d as [|[k' v'] d IH]; simpl.
  - now destruct (existsb _ keys).
  - destruct (existsb (String.eqb k') keys) eqn:Ek'; simpl.
    + rewrite IH. destruct (String.eqb_spec k k') as [->|]; [|reflexivity].
      now rewrite Ek'.
    + rewrite IH. destruct (String.eqb_spec k k') as [->|]; [|reflexivity].
      now rewrite Ek'.
Qed.

Lemma existsb_eqb_In k keys :
  existsb (String.eqb k) keys = true <-> In k keys.
Proof.
  rewrite existsb_exists. split.
  - intros (x & Hx & ->%String.eqb_eq). exact Hx.
  - intros H. exists k. split; [exact H | apply String.eqb_refl].
Qed.

(** A normalised record is the required-key subset of its input, and
    is well formed when the input is. *)
Lemma normalised_restrict keys (r out : record) :
  distinct keys = true ->
  dict_keys out = keys ->
  (forall k, In k keys -> dict_get out k = dict_get r k) ->
  same_record out (restrict keys r) /\
  (wf (JDict r) = true -> wf (JDict out) = true).
Proof.
  intros Hdist Hkeys Hget. split.
  - intros k. rewrite restrict_get.
    destruct (existsb (String.eqb k) keys) eqn:E.
    + apply Hget. now apply existsb_eqb_In.
    + apply dict_in_false_get.
      destruct (dict_in k out) eqn:Hin; [|reflexivity].
      apply dict_in_keys in Hin. rewrite Hkeys in Hin.
      apply existsb_eqb_In in Hin. congruence.
  - cbn [wf]. intros [_ Hr]%andb_prop.
    fold (dict_keys out). rewrite Hkeys, Hdist. cbn [andb].
    apply forallb_forall. intros [k v] Hin. cbn [snd].
    assert (Hk : In k keys).
    { rewrite <- Hkeys. unfold dict_keys. now apply (in_map fst) in Hin. }
    apply In_dict_get in Hin; [|now rewrite Hkeys].
    rewrite (Hget k Hk) in Hin. apply dict_get_In in Hin.
    rewrite forallb_forall in Hr. exact (Hr _ Hin).
Qed.




(** X2: a well-formed pipeline record that holds every required key is
    serialized by [build_pipeline_import] to a text that [json.loads]
    parses back to a dict equal to the required-key subset of the
    record. *)
Lemma pipeline_import_round_trip (pipeline : record) :
  has_keys pipeline_keys pipeline = true ->
  wf (JDict pipeline) = true ->
  exists text out,
    build_pipeline_import pipeline = inr text /\
    loads text = Some (JDict out) /\
    same_record out (restrict pipeline_keys pipeline).
Proof.
  intros Hkeys Hwf.
  destruct (build_pipeline_import_ok pipeline Hkeys) as (out & E & Hk & Hget).
  destruct (normalised_restrict pipeline_keys pipeline out eq_refl Hk Hget)
    as [Hsame Hout].
  destruct (loads_dumps (JDict out) (Hout Hwf)) as (text & Hd & Hl).
  exists text, out. rewrite E. auto.
Qed.

Lemma pipeline_import_round_trip_witness :
  exists text out,
    build_pipeline_import (sample_pipeline ++ [("extra", JNull)]) = inr text /\
    loads text = Some (JDict out) /\
    same_record out
      (restrict pipeline_keys (sample_pipeline ++ [("extra", JNull)])).
Proof. apply pipeline_import_round_trip; reflexivity. Defined.

(** The sample model, serialized and parsed: the eleven required
    fields in declaration order, [model_name] gone. *)
Example sample_model_round_trip :
  match build_model_import sample_model with
  | inr text => loads text
  | inl _ => None
  end =
  Some (JDict
          [("endpoint", JStr "https://example.org/score");
           ("api_key", JStr "k");
           ("content_type", JStr "application/json");
           ("deployment_platform", JStr "azure");
           ("created_by", JStr "u1");
           ("creation_date", JStr "2024-01-01");
           ("description", JStr "a \ b");
           ("version", JInt 3);
           ("job_name", JStr "j");
           ("dataset_description",
            JDict [("size", JInt (-12)); ("tags", JList [])]);
           ("Accuracy", JFloat "0.87")]).
Proof. vm_compute. reflexivity. Qed.
End RoundTrip.

(* ===================================================================== *)
(** * The query layer over any cursor                                    *)
(* ===================================================================== *)

Section AnyCursor.
Import Py Sql Inference Outcome.
Context {cursor val : Type} `{Driver cursor val} `{Str val}.

(** Splits the goal along what [execute] and the fetch after it do. *)
Ltac run_driver :=
  repeat match goal with
    | |- context [execute ?q ?p ?c] =>
        let e := fresh "e" in let c1 := fresh "c" in
        destruct (execute q p c) as [[e|[]] c1]; cbn
    | |- context [fetchone ?c] =>
        let e := fresh "e" in let r := fresh "row" in let c1 := fresh "c" in
        destruct (fetchone c) as [[e|[[|? r]|]] c1]; cbn
    | |- context [fetchall ?c] =>
        let e := fresh "e" in let r := fresh "rows" in let c1 := fresh "c" in
        destruct (fetchall c) as [[e|[r|]] c1]; cbn
    end.

Ltac unfold_query :=
  unfold execute_fetchone, execute_fetchall, fetch_after,
    mtry, mbind, mraise, mret, item0; cbn.

Lemma get_inference_outcome (inference_id : val) (c : cursor) :
  fst (get_inference inference_id c) =
  match execute_fetchone (SELECT (Some ["inference"]) "inference" "id")
          [inference_id] c with
  | Fetched (v :: _) => inr v
  | _ => inl (Exn InferenceNotFoundError
                ("Error: could not get inference " ++ str inference_id))
  end.
Proof. unfold get_inference. unfold_query. run_driver; reflexivity. Qed.

Lemma get_inference_object_outcome (inference_object_id : val) (c : cursor) :
  fst (get_inference_object inference_object_id c) =
  match execute_fetchone (SELECT None "object" "id")
          [inference_object_id] c with
  | Fetched row => inr row
  | _ => inl (Exn InferenceObjectNotFoundError
                ("Error: could not get inference object for id "
                 ++ str inference_object_id))
  end.
Proof.
  unfold get_inference_object. unfold_query. run_driver; reflexivity.
Qed.

Lemma get_objects_by_inference_outcome (inference_id : val) (c : cursor) :
  fst (get_objects_by_inference inference_id c) =
  match execute_fetchall (SELECT None "object" "inference_id")
          [inference_id] c with
  | Fetched rows => inr rows
  | _ => inl (Exn InferenceObjectNotFoundError
                ("Error: could not get objects for inference "
                 ++ str inference_id))
  end.
Proof.
  unfold get_objects_by_inference. unfold_query. run_driver; reflexivity.
Qed.

Lemma get_inference_object_top_id_outcome
    (inference_object_id : val) (c : cursor) :
  fst (get_inference_object_top_id inference_object_id c) =
  match execute_fetchone (SELECT (Some ["top_id"]) "object" "id")
          [inference_object_id] c with
  | Fetched (v :: _) => inr v
  | _ => inl (Exn Exception
                ("Error: could not get top_inference_id for inference "
                 ++ str inference_object_id))
  end.
Proof.
  unfold get_inference_object_top_id. unfold_query. run_driver; reflexivity.
Qed.
End AnyCursor.

Section ReadPath.
Import Py Sql Inference Outcome.
Context {cursor val : Type} `{Driver cursor val} `{Str val}.

(** C3, as the code has it: [get_inference] and [get_inference_object]
    turn both a driver error and a zero-row result into their typed
    not-found error ([InferenceNotFoundError], respectively
    [InferenceObjectNotFoundError]); [get_objects_by_inference] turns a
    driver error into [InferenceObjectNotFoundError] and returns the
    rows fetched otherwise, an empty list for a zero-row result. *)
Theorem read_failures_surface_as_not_found (id : val) (c : cursor) :
  let failed {R} (o : fetched R) :=
    (exists e, o = DriverRaised e) \/ o = Nothing in
  (failed (execute_fetchone (SELECT (Some ["inference"]) "inference" "id")
             [id] c) ->
   fst (get_inference id c) =
     inl (Exn InferenceNotFoundError
            ("Error: could not get inference " ++ str id))) /\
  (failed (execute_fetchone (SELECT None "object" "id") [id] c) ->
   fst (get_inference_object id c) =
     inl (Exn InferenceObjectNotFoundError
            ("Error: could not get inference object for id " ++ str id))) /\
  ((exists e,
      execute_fetchall (SELECT None "object" "inference_id") [id] c
      = DriverRaised e) ->
   fst (get_objects_by_inference id c) =
     inl (Exn InferenceObjectNotFoundError
            ("Error: could not get objects for inference " ++ str id))) /\
  (forall rows,
     execute_fetchall (SELECT None "object" "inference_id") [id] c
     = Fetched rows ->
     fst (get_objects_by_inference id c) = inr rows).
Proof.
  intros failed. split; [|split; [|split]].
  - rewrite get_inference_outcome. intros [[e ->]| ->]; reflexivity.
  - rewrite get_inference_object_outcome. intros [[e ->]| ->]; reflexivity.
  - rewrite get_objects_by_inference_outcome. intros [e ->]. reflexivity.
  - intros rows. rewrite get_objects_by_inference_outcome. now intros ->.
Qed.
(** C8: [get_objects_by_inference] sends
    [SELECT * FROM object WHERE inference_id = %s] with the id as its
    parameter and returns the rows the cursor then hands out, all of
    them and as they are; when there is none it returns the empty list
    and raises nothing.  On a cursor whose [fetchall] hands out a list
    (never [None], as the DB-API has it), it raises only when the
    driver raised, and then [InferenceObjectNotFoundError]. *)
Theorem read_all_returns_fetched_rows (inference_id : val) (c : cursor) :
  (forall c0, fst (fetchall c0) <> inr None) ->
  let q := SELECT None "object" "inference_id" in
  (forall rows,
     execute_fetchall q [inference_id] c = Fetched rows ->
     fst (get_objects_by_inference inference_id c) = inr rows) /\
  (execute_fetchall q [inference_id] c = Fetched [] ->
   fst (get_objects_by_inference inference_id c) = inr []) /\
  (forall e,
     fst (get_objects_by_inference inference_id c) = inl e ->
     e = Exn InferenceObjectNotFoundError
           ("Error: could not get objects for inference "
            ++ str inference_id) /\
     exists e', execute_fetchall q [inference_id] c = DriverRaised e').
Proof.
  intros Hlist q. subst q. rewrite get_objects_by_inference_outcome.
  split; [|split].
  - now intros rows ->.
  - now intros ->.
  - intros e.
    destruct (execute_fetchall (SELECT None "object" "inference_id")
                [inference_id] c) as [e'| |rows] eqn:E.
    + intros [= <-]. eauto.
    + exfalso. unfold execute_fetchall, fetch_after in E.
      destruct (execute (SELECT None "object" "inference_id")
                  [inference_id] c) as [[e0|u] c1]; [discriminate|].
      specialize (Hlist c1).
      destruct (fetchall c1) as [[e1|[rows|]] c2]; try discriminate.
      now apply Hlist.
    + discriminate.
Qed.
End ReadPath.

Section ReadPathStore.
Import Py Sql Inference Outcome Store.

(** Not every read turns a zero-row result into a typed not-found
    error.  For an inference that has no object, the statement of
    [get_objects_by_inference] selects zero rows and the function
    returns the empty list; the statement of
    [get_inference_object_top_id] selects zero rows and the function
    raises a plain [Exception]. *)
Lemma zero_rows_are_not_always_not_found :
  execute_fetchall (SELECT None "object" "inference_id") [INT 4]
    sample_store = Fetched [] /\
  fst (get_objects_by_inference (INT 4) sample_store) = inr [] /\
  execute_fetchone (SELECT (Some ["top_id"]) "object" "id") [INT 9]
    sample_store = Nothing /\
  fst (get_inference_object_top_id (INT 9) sample_store) =
    inl (Exn Exception
           "Error: could not get top_inference_id for inference 9").
Proof. repeat split; reflexivity. Qed.

Lemma read_failures_surface_as_not_found_witness :
  fst (get_inference (INT 9) sample_store) =
    inl (Exn InferenceNotFoundError "Error: could not get inference 9") /\
  fst (get_inference_object (INT 9) sample_store) =
    inl (Exn InferenceObjectNotFoundError
           "Error: could not get inference object for id 9") /\
  fst (get_objects_by_inference (INT 1) (offline sample_store)) =
    inl (Exn InferenceObjectNotFoundError
           "Error: could not get objects for inference 1") /\
  fst (get_objects_by_inference (INT 4) sample_store) = inr [].
Proof.
  destruct (read_failures_surface_as_not_found (INT 9) sample_store)
    as (H1 & H2 & _).
  destruct (read_failures_surface_as_not_found (INT 1)
              (offline sample_store)) as (_ & _ & H3 & _).
  destruct (read_failures_surface_as_not_found (INT 4) sample_store)
    as (_ & _ & _ & H4).
  split; [|split; [|split]].
  - apply H1. right. reflexivity.
  - apply H2. right. reflexivity.
  - apply H3. eexists. reflexivity.
  - apply H4. reflexivity.
Defined.
End ReadPathStore.

(* ===================================================================== *)
(** * Insert path                                                        *)
(* ===================================================================== *)

Section InsertPath.
Import Py Sql Inference Outcome.
Context {cursor val : Type} `{Driver cursor val} `{Str val}.

Ltac run_driver :=
  repeat match goal with
    | |- context [execute ?q ?p ?c] =>
        let e := fresh "e" in let c1 := fresh "c" in
        destruct (execute q p c) as [[e|[]] c1]; cbn
    | |- context [fetchone ?c] =>
        let e := fresh "e" in let r := fresh "row" in let c1 := fresh "c" in
        destruct (fetchone c) as [[e|[[|? r]|]] c1]; cbn
    end.

Ltac unfold_query :=
  unfold execute_fetchone, fetch_after,
    mtry, mbind, mraise, mret, item0; cbn.

(** [new_inference] runs one [INSERT] bound to [inference],
    [picture_id] and [user_id], fetches one row and returns its first
    field; whatever goes wrong becomes an [InferenceCreationError]. *)
Lemma new_inference_run {T : Type}
    (inference user_id picture_id : val) (type : T) (c : cursor) :
  new_inference inference user_id picture_id type c =
  match execute
          (INSERT "inference" ["inference"; "picture_id"; "user_id"]
                  [Placeholder; Placeholder; Placeholder] "id")
          [inference; picture_id; user_id] c with
  | (inl _, c1) =>
      (inl (Exn InferenceCreationError "Error: inference not uploaded"), c1)
  | (inr _, c1) =>
      match fetchone c1 with
      | (inr (Some (v :: _)), c2) => (inr v, c2)
      | (_, c2) =>
          (inl (Exn InferenceCreationError "Error: inference not uploaded"),
           c2)
      end
  end.
Proof. unfold new_inference. unfold_query. run_driver; reflexivity. Qed.

Lemma new_inference_outcome {T : Type}
    (inference user_id picture_id : val) (type : T) (c : cursor) :
  fst (new_inference inference user_id picture_id type c) =
  match execute_fetchone
          (INSERT "inference" ["inference"; "picture_id"; "user_id"]
                  [Placeholder; Placeholder; Placeholder] "id")
          [inference; picture_id; user_id] c with
  | Fetched (v :: _) => inr v
  | _ => inl (Exn InferenceCreationError "Error: inference not uploaded")
  end.
Proof. unfold new_inference. unfold_query. run_driver; reflexivity. Qed.

Lemma new_inference_object_outcome
    (inference_id box_metadata type_id : val) (c : cursor) :
  fst (new_inference_object inference_id box_metadata type_id c) =
  match execute_fetchone
          (INSERT "object" ["inference_id"; "box_metadata"; "type_id"]
                  [Placeholder; Placeholder; Placeholder] "id")
          [inference_id; box_metadata; type_id] c with
  | Fetched (v :: _) => inr v
  | _ => inl (Exn InferenceCreationError
                "Error: inference object not uploaded")
  end.
Proof. unfold new_inference_object. unfold_query. run_driver; reflexivity. Qed.

Lemma new_seed_object_outcome (seed_id object_id score : val) (c : cursor) :
  fst (new_seed_object seed_id object_id score c) =
  match execute_fetchone
          (INSERT "seed_obj" ["seed_id"; "object_id"; "score"]
                  [Placeholder; Placeholder; Placeholder] "id")
          [seed_id; object_id; score] c with
  | Fetched (v :: _) => inr v
  | _ => inl (Exn SeedObjectCreationError "Error: seed object not uploaded")
  end.
Proof. unfold new_seed_object. unfold_query. run_driver; reflexivity. Qed.

Ltac by_outcome L :=
  intros e; rewrite L;
  repeat match goal with
    | |- context [match ?o with _ => _ end] => destruct o
    end;
  congruence.

(** C4, as the code has it: a failing [new_inference] raises
    [InferenceCreationError]; a failing [new_inference_object] raises
    [InferenceCreationError] too, with a message of its own; a failing
    [new_seed_object] raises [SeedObjectCreationError]. *)
Theorem creation_failures_by_function {T : Type}
    (x y z : val) (type : T) (c : cursor) :
  (forall e, fst (new_inference x y z type c) = inl e ->
     e = Exn InferenceCreationError "Error: inference not uploaded") /\
  (forall e, fst (new_inference_object x y z c) = inl e ->
     e = Exn InferenceCreationError "Error: inference object not uploaded") /\
  (forall e, fst (new_seed_object x y z c) = inl e ->
     e = Exn SeedObjectCreationError "Error: seed object not uploaded").
Proof.
  split; [|split].
  - by_outcome (new_inference_outcome (T := T)).
  - by_outcome new_inference_object_outcome.
  - by_outcome new_seed_object_outcome.
Qed.

(** C10: the [type] argument of [new_inference] plays no part.  Two
    calls that differ in it alone are the same computation on every
    cursor: the one [INSERT] with the parameters [inference],
    [picture_id], [user_id], then one fetch; they end in the same
    cursor with the same id or the same error. *)
Theorem new_inference_ignores_type {T1 T2 : Type}
    (inference user_id picture_id : val) (type1 : T1) (type2 : T2)
    (c : cursor) :
  new_inference inference user_id picture_id type1 c =
  new_inference inference user_id picture_id type2 c /\
  new_inference inference user_id picture_id type1 c =
  match execute
          (INSERT "inference" ["inference"; "picture_id"; "user_id"]
                  [Placeholder; Placeholder; Placeholder] "id")
          [inference; picture_id; user_id] c with
  | (inl _, c1) =>
      (inl (Exn InferenceCreationError "Error: inference not uploaded"), c1)
  | (inr _, c1) =>
      match fetchone c1 with
      | (inr (Some (v :: _)), c2) => (inr v, c2)
      | (_, c2) =>
          (inl (Exn InferenceCreationError "Error: inference not uploaded"),
           c2)
      end
  end.
Proof.
  split; [|apply new_inference_run].
  now rewrite !new_inference_run.
Qed.
End InsertPath.

(* ===================================================================== *)
(** * Update path                                                        *)
(* ===================================================================== *)

Section UpdatePath.
Import Py Sql Inference Outcome.
Context {cursor val : Type} `{Driver cursor val} `{Str val}.

(** A setter is its one [UPDATE]: it returns when [execute] returns,
    in the cursor [execute] leaves, and raises a plain [Exception] when
    [execute] raises.  Nothing is fetched or counted. *)
Lemma run_setter_execute (s : setter) (id v : val) (c : cursor) :
  exists msg,
    run_setter s id v c =
    match execute (setter_stmt s) [v; id] c with
    | (inl _, c') => (inl (Exn Exception msg), c')
    | (inr u, c') => (inr u, c')
    end.
Proof.
  destruct s;
    cbv [run_setter setter_stmt setter_table setter_column
         set_inference_feedback_user_id set_inference_verified
         set_inference_object_top_id set_inference_object_verified_id
         set_inference_object_valid mtry mraise isinstance];
    eexists;
    match goal with
    | |- context [execute ?q ?p c] => destruct (execute q p c) as [[e|u] c']
    end; reflexivity.
Qed.

(** C5: a setter checks nothing beyond running its [UPDATE]: for every
    id and every value, whenever [execute] returns for the statement,
    the setter returns normally, in the cursor [execute] left (the
    number of rows the statement touched is never looked at). *)
Theorem setters_return_when_statement_executes
    (s : setter) (id v : val) (c c' : cursor) :
  execute (setter_stmt s) [v; id] c = (inr tt, c') ->
  run_setter s id v c = (inr tt, c').
Proof.
  intros E. destruct (run_setter_execute s id v c) as [msg ->].
  now rewrite E.
Qed.
End UpdatePath.

(* ===================================================================== *)
(** * The query layer over the relational store                          *)
(* ===================================================================== *)

Section StoreFacts.
Import Py Sql Inference Outcome Store.

Lemma table_setitem (c : cursor) ts t rows t' :
  ts = dict_setitem (tables c) t rows ->
  dict_in t (tables c) = true ->
  match dict_get ts t' with Some r => r | None => [] end =
  if String.eqb t' t then rows else table c t'.
Proof.
  intros -> Hin. rewrite dict_get_setitem. unfold table.
  now destruct (String.eqb t' t).
Qed.

Lemma dict_setitem_same {V} (d : dict V) k v :
  dict_get d k = Some v -> dict_setitem d k v = d.
Proof.
  induction d as [|[k' v'] d IH]; simpl; [discriminate|].
  destruct (String.eqb_spec k k') as [->|Hne].
  - now intros [= ->].
  - intros Hd. now rewrite IH.
Qed.

(** The columns a [SET] list does not name keep their value. *)
Lemma assign_columns_other (r : row) cols vs col :
  ~ In col cols -> dict_get (assign_columns r cols vs) col = dict_get r col.
Proof.
  unfold assign_columns. revert r vs.
  induction cols as [|c0 cols IH]; intros r [|v0 vs] Hn; simpl;
    try reflexivity.
  rewrite IH by (intros Hc; apply Hn; now right).
  rewrite dict_get_setitem.
  destruct (String.eqb_spec col c0) as [->|]; [|reflexivity].
  exfalso. apply Hn. now left.
Qed.

(** What an [UPDATE] does to the tables: either nothing (the driver
    raised), or the [SET] columns of the rows that match are assigned;
    the other tables stay as they are. *)
Lemma update_effect t set where_ params (c : cursor) :
  let c' := snd (execute (UPDATE t set where_) params c) in
  (forall t', t' <> t -> table c' t' = table c t') /\
  ((exists e, fst (execute (UPDATE t set where_) params c) = inl e) /\
     table c' t = table c t
   \/
   exists vs w,
     bind_exprs (clock c) (map snd set) params = Some (vs, [w]) /\
     fst (execute (UPDATE t set where_) params c) = inr tt /\
     table c' t =
       map (fun r => if matches where_ w r
                     then assign_columns r (map fst set) vs else r)
           (table c t)).
Proof.
  assert (Hfail : forall msg c0,
            tables c0 = tables c ->
            (forall t', t' <> t ->
               table (snd (@driver_error unit msg c0)) t' = table c t') /\
            ((exists e, fst (@driver_error unit msg c0) = inl e) /\
               table (snd (@driver_error unit msg c0)) t = table c t
             \/
             exists vs w,
               bind_exprs (clock c) (map snd set) params = Some (vs, [w]) /\
               fst (@driver_error unit msg c0) = inr tt /\
               table (snd (@driver_error unit msg c0)) t =
                 map (fun r => if matches where_ w r
                               then assign_columns r (map fst set) vs else r)
                     (table c t))).
  { intros msg c0 E. unfold driver_error, table. cbn. rewrite E.
    split; [reflexivity | left; split; [eexists|]; reflexivity]. }
  cbn. unfold run. cbn.
  destruct (online c); cbn; [|now apply Hfail].
  destruct (dict_get (tables c) t) as [rows|] eqn:Ht; [|now apply Hfail].
  destruct (bind_exprs (clock c) (map snd set) params)
    as [[vs [|w [|? ?]]]|] eqn:Hb;
    try (now apply Hfail).
  cbn. unfold table. cbn. split.
  - intros t' Hne. rewrite dict_get_setitem.
    destruct (String.eqb_spec t' t); [contradiction | reflexivity].
  - right. exists vs, w. repeat split.
    now rewrite dict_get_setitem, String.eqb_refl, Ht.
Qed.

Lemma run_setter_cursor (s : setter) (id v : sqlval) (c : cursor) :
  snd (run_setter s id v c) = snd (execute (setter_stmt s) [v; id] c) /\
  (fst (run_setter s id v c) = inr tt <->
   fst (execute (setter_stmt s) [v; id] c) = inr tt) /\
  ((exists e, fst (execute (setter_stmt s) [v; id] c) = inl e) ->
   exists e, fst (run_setter s id v c) = inl e).
Proof.
  destruct (run_setter_execute s id v c) as [msg ->].
  destruct (execute (setter_stmt s) [v; id] c) as [[e|[]] c']; cbn.
  - split; [reflexivity | split; [split; discriminate | eauto]].
  - split; [reflexivity | split; [tauto | intros [e [=]]]].
Qed.
End StoreFacts.

Section StoreQueries.
Import Py Sql Inference Outcome Store.

Lemma bind_setter (s : setter) (now : Z) (id v : sqlval) :
  bind_exprs now (map snd (match setter_stmt s with
                           | UPDATE _ set _ => set
                           | _ => []
                           end)) [v; id] =
  Some (match s with
        | ObjectVerifiedId => [v; INT now]
        | _ => [v]
        end, [id]).
Proof. destruct s; reflexivity. Qed.

(** What a setter does to the rows of its table. *)
Lemma setter_effect (s : setter) (id v : sqlval) (c : cursor) :
  let c' := snd (run_setter s id v c) in
  (forall t, t <> setter_table s -> table c' t = table c t) /\
  ((exists e, fst (run_setter s id v c) = inl e) /\
     table c' (setter_table s) = table c (setter_table s)
   \/
   fst (run_setter s id v c) = inr tt /\
   table c' (setter_table s) =
     map (fun r =>
            if sql_eqb (column r "id") id then
              match s with
              | ObjectVerifiedId =>
                  dict_setitem (dict_setitem r "verified_id" v)
                    "updated_at" (INT (clock c))
              | _ => dict_setitem r (setter_column s) v
              end
            else r)
         (table c (setter_table s))).
Proof.
  destruct (run_setter_cursor s id v c) as (Hc & Hr & Hf).
  cbv zeta. rewrite Hc, Hr. clear Hc Hr.
  pose proof (bind_setter s (clock c) id v) as Hb.
  unfold setter_stmt in *.
  match goal with
  | |- context [execute (UPDATE ?t ?set ?w) ?p c] =>
      destruct (update_effect t set w p c) as [Hother Hthis]
  end.
  split; [exact Hother|].
  destruct Hthis as [[He Hsame]|(vs & w & Hvs & Hok & Hmap)];
    [left; split; [apply Hf, He | exact Hsame]|].
  right. split; [exact Hok|]. rewrite Hmap.
  rewrite Hb in Hvs. injection Hvs as <- <-.
  apply map_ext. intros r. unfold matches.
  destruct (sql_eqb (column r "id") id); [|reflexivity].
  destruct s; reflexivity.
Qed.

Lemma Forall2_map_r {A} (P : A -> A -> Prop) (f : A -> A) (l : list A) :
  (forall x, P x (f x)) -> Forall2 P l (map f l).
Proof. intros Hf. induction l; simpl; constructor; auto. Qed.

Lemma Forall2_same {A} (P : A -> A -> Prop) (l : list A) :
  (forall x, P x x) -> Forall2 P l l.
Proof. intros Hf. induction l; constructor; auto. Qed.

(** C9: of the three object setters, [set_inference_object_verified_id]
    alone writes [updated_at]: the rows it matches get the new
    [verified_id] and the current timestamp.
    [set_inference_object_top_id] and [set_inference_object_valid]
    leave every column but [top_id], respectively [valid], of every
    object row as it was, [updated_at] included.  No setter changes a
    row whose id differs, nor another table. *)
Theorem only_verified_id_setter_stamps_updated_at
    (id v : sqlval) (c : cursor) :
  let after s := snd (run_setter s id v c) in
  let keeps (written : list string) (r r' : row) :=
    (sql_eqb (column r "id") id = false -> r' = r) /\
    (forall col, ~ In col written -> dict_get r' col = dict_get r col) in
  Forall2 (keeps ["top_id"])
    (table c "object") (table (after ObjectTopId) "object") /\
  Forall2 (keeps ["valid"])
    (table c "object") (table (after ObjectValid) "object") /\
  Forall2
    (fun r r' =>
       keeps ["verified_id"; "updated_at"] r r' /\
       (fst (run_setter ObjectVerifiedId id v c) = inr tt ->
        sql_eqb (column r "id") id = true ->
        dict_get r' "verified_id" = Some v /\
        dict_get r' "updated_at" = Some (INT (clock c))))
    (table c "object") (table (after ObjectVerifiedId) "object") /\
  (forall s t, t <> "object" ->
     In s [ObjectTopId; ObjectValid; ObjectVerifiedId] ->
     table (after s) t = table c t).
Proof.
  intros after keeps.
  assert (Hone : forall col w (r : row),
            keeps [col] r
              (if sql_eqb (column r "id") id
               then dict_setitem r col w else r)).
  { intros col w r. unfold keeps.
    destruct (sql_eqb (column r "id") id); split; try easy.
    intros col' Hn. rewrite dict_get_setitem.
    destruct (String.eqb_spec col' col) as [->|]; [|reflexivity].
    exfalso. apply Hn. now left. }
  assert (Hrefl : forall cols r, keeps cols r r) by (now split).
  split; [|split; [|split]].
  - destruct (setter_effect ObjectTopId id v c) as [_ [[_ E]|[_ E]]];
      fold (after ObjectTopId) in E; cbn [setter_table] in E; rewrite E.
    + apply Forall2_same, Hrefl.
    + apply Forall2_map_r. intros r. apply Hone.
  - destruct (setter_effect ObjectValid id v c) as [_ [[_ E]|[_ E]]];
      fold (after ObjectValid) in E; cbn [setter_table] in E; rewrite E.
    + apply Forall2_same, Hrefl.
    + apply Forall2_map_r. intros r. apply Hone.
  - destruct (setter_effect ObjectVerifiedId id v c)
      as [_ [[[e He] E]|[Hok E]]];
      fold (after ObjectVerifiedId) in E; cbn [setter_table] in E; rewrite E.
    + apply Forall2_same. intros r. split; [apply Hrefl|].
      rewrite He. discriminate.
    + apply Forall2_map_r. intros r. split.
      * unfold keeps. destruct (sql_eqb (column r "id") id); split; try easy.
        intros col Hn. rewrite !dict_get_setitem.
        destruct (String.eqb_spec col "updated_at") as [->|];
          [exfalso; apply Hn; simpl; tauto|].
        destruct (String.eqb_spec col "verified_id") as [->|];
          [exfalso; apply Hn; simpl; tauto|]. reflexivity.
      * intros _ ->. rewrite !dict_get_setitem. split; reflexivity.
  - intros s t Hne Hs.
    destruct (setter_effect s id v c) as [Hother _]. apply Hother.
    simpl in Hs. destruct Hs as [<-|[<-|[<-|[]]]]; exact Hne.
Qed.
End StoreQueries.

Section StoreReads.
Import Py Sql Inference Outcome Store.

(** The cursor of the store follows the DB-API: [fetchall] hands out a
    list, never [None]. *)
Lemma store_fetchall_list (c : cursor) : fst (fetchall c) <> inr None.
Proof. cbn. now destruct (pending c). Qed.

Lemma read_all_returns_fetched_rows_witness :
  fst (get_objects_by_inference (INT 1) sample_store) =
    inr [[INT 2; INT 1; TEXT "a"; INT 1; INT 1600000000];
         [INT 3; INT 1; TEXT "b"; INT 1; INT 1600000000]] /\
  fst (get_objects_by_inference (INT 4) sample_store) = inr [] /\
  exists e,
    fst (get_objects_by_inference (INT 1) (offline sample_store)) = inl e /\
    e = Exn InferenceObjectNotFoundError
          "Error: could not get objects for inference 1".
Proof.
  destruct (read_all_returns_fetched_rows (INT 1) sample_store
              store_fetchall_list) as (H1 & _ & _).
  destruct (read_all_returns_fetched_rows (INT 4) sample_store
              store_fetchall_list) as (_ & H4 & _).
  destruct (read_all_returns_fetched_rows (INT 1) (offline sample_store)
              store_fetchall_list) as (_ & _ & H0).
  split; [|split].
  - apply H1. reflexivity.
  - apply H4. reflexivity.
  - eexists. split; [reflexivity|]. apply H0. reflexivity.
Defined.

(** Not one error class per table: on a lost connection
    [new_inference] and [new_inference_object] raise errors of one and
    the same class, [InferenceCreationError]. *)
Lemma object_creation_error_is_inference_creation_error :
  exists e1 e2,
    fst (new_inference (TEXT "{}") (INT 20) (INT 10) tt
           (offline sample_store)) = inl e1 /\
    fst (new_inference_object (INT 1) (TEXT "box") (INT 1)
           (offline sample_store)) = inl e2 /\
    exn_cls e1 = InferenceCreationError /\
    exn_cls e2 = InferenceCreationError.
Proof. do 2 eexists. repeat split. Qed.

Lemma creation_failures_by_function_witness :
  (exists e,
     fst (new_inference (TEXT "{}") (INT 20) (INT 10) tt
            (offline sample_store)) = inl e /\
     e = Exn InferenceCreationError "Error: inference not uploaded") /\
  (exists e,
     fst (new_inference_object (INT 1) (TEXT "box") (INT 1)
            (offline sample_store)) = inl e /\
     e = Exn InferenceCreationError "Error: inference object not uploaded") /\
  (exists e,
     fst (new_seed_object (INT 7) (INT 2) (REAL "0.75")
            (offline sample_store)) = inl e /\
     e = Exn SeedObjectCreationError "Error: seed object not uploaded").
Proof.
  destruct (creation_failures_by_function
              (TEXT "{}") (INT 20) (INT 10) tt (offline sample_store))
    as (H1 & _ & _).
  destruct (creation_failures_by_function
              (INT 1) (TEXT "box") (INT 1) tt (offline sample_store))
    as (_ & H2 & _).
  destruct (creation_failures_by_function
              (INT 7) (INT 2) (REAL "0.75") tt (offline sample_store))
    as (_ & _ & H3).
  split; [|split]; eexists; (split; [reflexivity|]).
  - apply H1. reflexivity.
  - apply H2. reflexivity.
  - apply H3. reflexivity.
Defined.
End StoreReads.

Section StoreUpdates.
Import Py Sql Inference Outcome Store.

(** No existence check: on a live connection to a store that has the
    table, a setter returns normally for every id; when no row has
    that id, no row of the table changes. *)
Lemma setter_succeeds_for_any_id (s : setter) (id v : sqlval) (c : cursor) :
  online c = true ->
  dict_in (setter_table s) (tables c) = true ->
  fst (run_setter s id v c) = inr tt /\
  (filter (fun r => sql_eqb (column r "id") id) (table c (setter_table s))
     = [] ->
   table (snd (run_setter s id v c)) (setter_table s)
     = table c (setter_table s)).
Proof.
  intros Hon Hin.
  assert (Hok : fst (run_setter s id v c) = inr tt).
  { apply (proj1 (proj2 (run_setter_cursor s id v c))).
    apply dict_in_get in Hin as [rows Hrows].
    destruct s; cbn in *; unfold run; cbn; rewrite Hon; cbn;
      rewrite Hrows; reflexivity. }
  split; [exact Hok|]. intros Hnone.
  destruct (setter_effect s id v c) as [_ [[_ E]|[_ E]]]; [exact E|].
  rewrite E. clear E.
  induction (table c (setter_table s)) as [|r rows IH]; [reflexivity|].
  simpl in *. destruct (sql_eqb (column r "id") id); [discriminate|].
  now rewrite IH.
Qed.

Lemma setters_return_when_statement_executes_witness :
  exists c',
    run_setter ObjectValid (INT 9) (BOOL true) sample_store = (inr tt, c') /\
    filter (fun r => sql_eqb (column r "id") (INT 9))
      (table sample_store "object") = [] /\
    table c' "object" = table sample_store "object".
Proof.
  eexists. split.
  - apply setters_return_when_statement_executes. reflexivity.
  - split; reflexivity.
Defined.

Lemma only_verified_id_setter_stamps_updated_at_witness :
  map (fun r => column r "updated_at")
    (table (snd (set_inference_object_top_id (INT 2) (INT 3) sample_store))
       "object") = [INT 1600000000; INT 1600000000] /\
  map (fun r => column r "updated_at")
    (table (snd (set_inference_object_verified_id (INT 2) (INT 3)
                   sample_store))
       "object") = [INT 1700000000; INT 1600000000] /\
  Forall2 (fun r r' => dict_get r' "updated_at" = dict_get r "updated_at")
    (table sample_store "object")
    (table (snd (set_inference_object_valid (INT 2) (BOOL true)
                   sample_store)) "object").
Proof.
  split; [reflexivity|]. split; [reflexivity|].
  destruct (only_verified_id_setter_stamps_updated_at
              (INT 2) (BOOL true) sample_store) as (_ & Hvalid & _).
  eapply Forall2_impl; [|exact Hvalid].
  intros r r' [_ Hk]. apply Hk. simpl. intros [E|[]]. discriminate.
Defined.

(** What the cursor was given by [new_inference]: the one [INSERT],
    with [inference], [picture_id] and [user_id]. *)
Lemma new_inference_calls {T : Type}
    (inference user_id picture_id : sqlval) (type : T) (c : cursor) :
  calls (snd (new_inference inference user_id picture_id type c)) =
  calls c ++
    [(INSERT "inference" ["inference"; "picture_id"; "user_id"]
             [Placeholder; Placeholder; Placeholder] "id",
      [inference; picture_id; user_id])].
Proof.
  rewrite new_inference_run. cbn. unfold run. cbn.
  destruct (online c); cbn; [|reflexivity].
  destruct (dict_get (tables c) "inference"); reflexivity.
Qed.

(** Create, then read: the inference just stored is read back. *)
Example create_then_read :
  let '(id, c1) := new_inference (TEXT "{}") (INT 20) (INT 10) tt
                     empty_store in
  id = inr (INT 1) /\
  fst (get_inference (INT 1) c1) = inr (TEXT "{}").
Proof. split; reflexivity. Qed.
End StoreUpdates.

(* ===================================================================== *)
(** * More on the metadata shaper                                        *)
(* ===================================================================== *)

Section ShaperMore.
Import Py PyNotations Json MachineLearning.

(** Two records that agree on [keys]. *)
Lemma agree_dict_in keys (r1 r2 : record) :
  (forall k, In k keys -> dict_get r1 k = dict_get r2 k) ->
  forall k, In k keys -> dict_in k r1 = dict_in k r2.
Proof.
  intros H k Hk. specialize (H k Hk).
  destruct (dict_in k r2) eqn:E2.
  - apply dict_in_get in E2 as [v Hv]. apply dict_in_get. exists v. congruence.
  - apply dict_in_false_get in E2. apply dict_in_false_get. congruence.
Qed.

Lemma agree_check_keys keys (r1 r2 : record) :
  (forall k, In k keys -> dict_get r1 k = dict_get r2 k) ->
  check_keys keys r1 = check_keys keys r2.
Proof.
  induction keys as [|k keys IH]; intros H; simpl; [reflexivity|].
  rewrite (agree_dict_in _ _ _ H k (or_introl eq_refl)).
  destruct (dict_in k r2); simpl; [|reflexivity].
  apply IH. intros k' Hk'. apply H. now right.
Qed.

Lemma agree_getitem keys (r1 r2 : record) :
  (forall k, In k keys -> dict_get r1 k = dict_get r2 k) ->
  forall k, In k keys -> dict_getitem r1 k = dict_getitem r2 k.
Proof. intros H k Hk. unfold dict_getitem. now rewrite (H k Hk). Qed.

Ltac same_item H k :=
  rewrite (agree_getitem _ _ _ H k ltac:(simpl; tauto)).

Lemma build_pipeline_import_agree (r1 r2 : record) :
  (forall k, In k pipeline_keys -> dict_get r1 k = dict_get r2 k) ->
  build_pipeline_import r1 = build_pipeline_import r2.
Proof.
  intros H. unfold build_pipeline_import.
  rewrite (agree_check_keys _ _ _ H).
  same_item H "models". same_item H "created_by".
  same_item H "creation_date". same_item H "description".
  same_item H "job_name". same_item H "version".
  same_item H "dataset_description". same_item H "Accuracy".
  reflexivity.
Qed.

Lemma build_model_import_agree (r1 r2 : record) :
  (forall k, In k model_keys -> dict_get r1 k = dict_get r2 k) ->
  build_model_import r1 = build_model_import r2.
Proof.
  intros H. unfold build_model_import.
  rewrite (agree_check_keys _ _ _ H).
  same_item H "endpoint". same_item H "api_key". same_item H "content_type".
  same_item H "deployment_platform". same_item H "created_by".
  same_item H "creation_date". same_item H "description".
  same_item H "version". same_item H "job_name".
  same_item H "dataset_description". same_item H "Accuracy".
  reflexivity.
Qed.

(** X1: what [build_pipeline_import] and [build_model_import] do with a
    record depends on its required fields alone.  Two records that bind
    (or lack) each required key alike get the same text, or the same
    error, whatever their other fields and whatever the order of their
    fields. *)
Theorem import_reads_required_fields_only (e : entity) (r1 r2 : record) :
  (forall k, In k (required_keys e) -> dict_get r1 k = dict_get r2 k) ->
  build_import e r1 = build_import e r2.
Proof.
  destruct e; cbn [required_keys build_import]; intros H.
  - now apply build_pipeline_import_agree.
  - now apply build_model_import_agree.
Qed.

Lemma import_reads_required_fields_only_witness :
  build_model_import sample_model =
  build_model_import (rev sample_model ++ [("owner", JStr "u2")]) /\
  build_pipeline_import sample_pipeline_incomplete =
  build_pipeline_import (("extra", JNull) :: sample_pipeline_incomplete).
Proof.
  split.
  - apply (import_reads_required_fields_only Model).
    intros k Hk. simpl in Hk.
    repeat (destruct Hk as [<-|Hk]; [reflexivity|]). destruct Hk.
  - apply (import_reads_required_fields_only Pipeline).
    intros k Hk. simpl in Hk.
    repeat (destruct Hk as [<-|Hk]; [reflexivity|]). destruct Hk.
Defined.

Lemma has_keys_of_ok (e : entity) (r : record) text :
  build_import e r = inr text -> has_keys (required_keys e) r = true.
Proof.
  intros E. destruct (has_keys (required_keys e) r) eqn:Hk; [reflexivity|].
  destruct (check_keys_missing _ _ Hk) as (k & _ & Hc).
  destruct e; cbn [build_import required_keys] in *.
  - unfold build_pipeline_import in E. rewrite Hc in E. discriminate.
  - unfold build_model_import in E. rewrite Hc in E. discriminate.
Qed.

Lemma build_import_ok (e : entity) (r : record) :
  has_keys (required_keys e) r = true ->
  exists out,
    build_import e r = dumps (JDict out) /\
    dict_keys out = required_keys e /\
    forall k, In k (required_keys e) -> dict_get out k = dict_get r k.
Proof.
  destruct e; [apply build_pipeline_import_ok | apply build_model_import_ok].
Qed.

Lemma build_import_agree (e : entity) (r1 r2 : record) :
  (forall k, In k (required_keys e) -> dict_get r1 k = dict_get r2 k) ->
  build_import e r1 = build_import e r2.
Proof.
  destruct e;
    [apply build_pipeline_import_agree | apply build_model_import_agree].
Qed.

Lemma required_keys_distinct (e : entity) : distinct (required_keys e) = true.
Proof. destruct e; reflexivity. Qed.

(** X3: importing is a normalisation that is done once.  When a
    well-formed record is accepted, the text parses to a record that is
    accepted in turn and serialized to the very same text. *)
Theorem import_of_parsed_import (e : entity) (r : record) (text : string) :
  wf (JDict r) = true ->
  build_import e r = inr text ->
  exists out,
    loads text = Some (JDict out) /\
    build_import e out = inr text.
Proof.
  intros Hwf E.
  pose proof (has_keys_of_ok e r text E) as Hkeys.
  destruct (build_import_ok e r Hkeys) as (out & E' & Hk & Hget).
  destruct (normalised_restrict _ r out (required_keys_distinct e) Hk Hget)
    as [_ Hout].
  destruct (loads_dumps (JDict out) (Hout Hwf)) as (text' & Hd & Hl).
  assert (text' = text) as -> by congruence.
  exists out. split; [exact Hl|].
  rewrite <- E. now apply build_import_agree.
Qed.

Lemma import_of_parsed_import_witness :
  exists text out,
    build_model_import sample_model = inr text /\
    loads text = Some (JDict out) /\
    build_model_import out = inr text.
Proof.
  eexists.
  destruct (import_of_parsed_import Model sample_model _ eq_refl eq_refl)
    as (out & Hl & Hb).
  exists out. split; [reflexivity|]. split; assumption.
Defined.

(** X4: exporting a stored record that holds every required key and
    importing the result gives what importing the stored record gives:
    the fields the export lays under the record do not show. *)
Theorem import_of_export {Id : Type} `{Str Id}
    (data : record) (id : Id) (default : bool) (model_ids : value)
    (name endpoint task_name version : string) :
  (has_keys pipeline_keys data = true ->
   exists out,
     build_pipeline_export data name id default model_ids = inr out /\
     build_pipeline_import out = build_pipeline_import data) /\
  (has_keys model_keys data = true ->
   exists out,
     build_model_export data id name endpoint task_name version = inr out /\
     build_model_import out = build_model_import data).
Proof.
  assert (Hget : forall keys base k,
            has_keys keys data = true -> In k keys ->
            dict_get (overlay base data) k = dict_get data k).
  { intros keys base k Hk Hin. rewrite overlay_get.
    destruct (dict_getitem_in data k (has_keys_in _ _ Hk k Hin))
      as (v & _ & ->). reflexivity. }
  split; intros Hk; eexists; (split; [apply copy_fields_overlay|]).
  - apply build_pipeline_import_agree. intros k Hin. now apply (Hget _ _ _ Hk).
  - apply build_model_import_agree. intros k Hin. now apply (Hget _ _ _ Hk).
Qed.

Lemma import_of_export_witness :
  (exists out,
     build_pipeline_export sample_pipeline "p" 7%Z true (JList [JStr "m2"])
       = inr out /\
     build_pipeline_import out = build_pipeline_import sample_pipeline) /\
  (exists out,
     build_model_export sample_model 8%Z "m" "e" "t" "9" = inr out /\
     build_model_import out = build_model_import sample_model).
Proof.
  split.
  - apply (proj1 (import_of_export sample_pipeline 7%Z true
                    (JList [JStr "m2"]) "p" "e" "t" "9")).
    reflexivity.
  - apply (proj2 (import_of_export sample_model 8%Z true JNull
                    "m" "e" "t" "9")).
    reflexivity.
Defined.

(** ** The order of the exported fields *)

Lemma dict_keys_setitem (d : record) k v :
  dict_keys (dict_setitem d k v) =
  if dict_in k d then dict_keys d else dict_keys d ++ [k].
Proof.
  unfold dict_keys. induction d as [|[k' v'] d IH]; simpl; [reflexivity|].
  destruct (String.eqb k k'); simpl; [reflexivity|].
  rewrite IH. now destruct (dict_in k d).
Qed.

Lemma fold_assign_keys (data : record) keys db :
  (forall k, In k keys -> dict_in k data = true) ->
  distinct keys = true ->
  dict_keys (fold_left (assign data) keys db) =
  dict_keys db ++ filter (fun k => negb (dict_in k db)) keys.
Proof.
  revert db. induction keys as [|k keys IH]; intros db Hin Hd; simpl.
  - now rewrite app_nil_r.
  - simpl in Hd. apply andb_prop in Hd as [Hk Hd].
    apply negb_true_iff in Hk.
    destruct (dict_getitem_in data k (Hin k (or_introl eq_refl)))
      as (v & _ & Hv).
    unfold assign at 2. rewrite Hv.
    rewrite IH by (auto; intros; apply Hin; now right).
    rewrite dict_keys_setitem.
    assert (Hf : filter (fun k0 => negb (dict_in k0 (dict_setitem db k v))) keys
                 = filter (fun k0 => negb (dict_in k0 db)) keys).
    { apply filter_ext_in. intros k0 Hk0. rewrite dict_in_setitem.
      destruct (String.eqb_spec k0 k) as [->|]; [|reflexivity].
      exfalso. assert (existsb (String.eqb k) keys = true); [|congruence].
      apply existsb_exists. exists k. split; [exact Hk0|apply String.eqb_refl]. }
    rewrite Hf. destruct (dict_in k db); simpl; [reflexivity|].
    now rewrite <- app_assoc.
Qed.

Lemma overlay_keys (base data : record) :
  distinct (dict_keys data) = true ->
  dict_keys (overlay base data) =
  dict_keys base ++ filter (fun k => negb (dict_in k base)) (dict_keys data).
Proof.
  intros Hd. unfold overlay. apply fold_assign_keys; [|exact Hd].
  intros k. apply dict_in_keys.
Qed.

(** X5: the exported record lists the identifying fields first, in
    their fixed order, also those the stored record overwrites; the
    stored fields that are new follow, in the order of the stored
    record. *)
Theorem export_field_order {Id : Type} `{Str Id}
    (data : record) (id : Id) (default : bool) (model_ids : value)
    (name endpoint task_name version : string) :
  distinct (dict_keys data) = true ->
  (exists out,
     build_pipeline_export data name id default model_ids = inr out /\
     let fixed := ["models"; "pipeline_id"; "pipeline_name"; "default"] in
     dict_keys out =
       fixed ++ filter (fun k => negb (existsb (String.eqb k) fixed))
                  (dict_keys data)) /\
  (exists out,
     build_model_export data id name endpoint task_name version = inr out /\
     let fixed :=
       ["model_id"; "model_name"; "endpoint_name"; "task"; "version"] in
     dict_keys out =
       fixed ++ filter (fun k => negb (existsb (String.eqb k) fixed))
                  (dict_keys data)).
Proof.
  intros Hd.
  split; eexists; (split; [apply copy_fields_overlay|]); cbv zeta;
    rewrite (overlay_keys _ _ Hd); cbn [dict_keys map fst pipeline_base
                                        model_base];
    f_equal; apply filter_ext; intros k; f_equal;
    symmetry; apply (existsb_keys _ k).
Qed.

Lemma export_field_order_witness :
  exists out,
    build_model_export sample_model 8%Z "m" "e" "t" "9" = inr out /\
    dict_keys out =
      ["model_id"; "model_name"; "endpoint_name"; "task"; "version";
       "Accuracy"; "endpoint"; "api_key"; "content_type";
       "deployment_platform"; "created_by"; "creation_date"; "description";
       "job_name"; "dataset_description"].
Proof.
  destruct (export_field_order sample_model 8%Z true JNull "m" "e" "t" "9"
              eq_refl) as [_ (out & E & Hk)].
  exists out. split; [exact E | exact Hk].
Defined.
End ShaperMore.

(* ===================================================================== *)
(** * More on the query layer, over any cursor                           *)
(* ===================================================================== *)

Section ErrorTable.
Import Py Sql Inference Outcome.
Context {cursor val : Type} `{Driver cursor val} `{Str val}.

(** Every query function is [try: body except Exception: raise e]. *)
Lemma mtry_raises_only {A} (body : M cursor A) (e : exn) :
  raises_only (mtry body Exception (fun _ => mraise e)) e.
Proof.
  intros c e'. unfold mtry, mraise.
  destruct (body c) as [[e0|a] c']; cbn; [|discriminate].
  now intros [= <-].
Qed.

(** X6: the errors of the query layer.  Each function raises one
    exception only, with a fixed class and message, whatever the driver
    raised and wherever ([execute], the fetch, or the subscript of a
    missing row): no driver error, [TypeError] or [IndexError] reaches
    the caller. *)
Theorem query_errors (x y z : val) :
  raises_only (new_inference x y z tt)
    (Exn InferenceCreationError "Error: inference not uploaded") /\
  raises_only (get_inference x)
    (Exn InferenceNotFoundError ("Error: could not get inference " ++ str x)) /\
  raises_only (set_inference_feedback_user_id x y)
    (Exn Exception ("Error: could not set feedback_user_id " ++ str y
                    ++ " for inference " ++ str x)) /\
  raises_only (set_inference_verified x y)
    (Exn Exception ("Error: could not update verified " ++ str y
                    ++ " for inference " ++ str x)) /\
  raises_only (new_inference_object x y z)
    (Exn InferenceCreationError "Error: inference object not uploaded") /\
  raises_only (get_inference_object x)
    (Exn InferenceObjectNotFoundError
       ("Error: could not get inference object for id " ++ str x)) /\
  raises_only (get_objects_by_inference x)
    (Exn InferenceObjectNotFoundError
       ("Error: could not get objects for inference " ++ str x)) /\
  raises_only (set_inference_object_top_id x y)
    (Exn Exception ("Error: could not set top_id " ++ str y
                    ++ " for inference " ++ str x)) /\
  raises_only (get_inference_object_top_id x)
    (Exn Exception ("Error: could not get top_inference_id for inference "
                    ++ str x)) /\
  raises_only (set_inference_object_verified_id x y)
    (Exn Exception ("Error: could not update verified_id for object "
                    ++ str x)) /\
  raises_only (set_inference_object_valid x y)
    (Exn Exception ("Error: could not update valid for object " ++ str x)) /\
  raises_only (new_seed_object x y z)
    (Exn SeedObjectCreationError "Error: seed object not uploaded").
Proof. repeat split; apply mtry_raises_only. Qed.
End ErrorTable.

Section TopIdAndSetters.
Import Py Sql Inference Outcome.
Context {cursor val : Type} `{Driver cursor val} `{Str val}.

(** X7: [get_inference_object_top_id] returns the first field of the
    row fetched.  When the driver raises, and when no row has the id, it
    raises a plain [Exception] that names the id: no typed not-found
    error, unlike [get_inference_object]. *)
Theorem top_id_read (id : val) (c : cursor) :
  let q := SELECT (Some ["top_id"]) "object" "id" in
  let error :=
    Exn Exception
      ("Error: could not get top_inference_id for inference " ++ str id) in
  (forall v row,
     execute_fetchone q [id] c = Fetched (v :: row) ->
     fst (get_inference_object_top_id id c) = inr v) /\
  ((exists e, execute_fetchone q [id] c = DriverRaised e) ->
   fst (get_inference_object_top_id id c) = inl error) /\
  (execute_fetchone q [id] c = Nothing ->
   fst (get_inference_object_top_id id c) = inl error).
Proof.
  cbv zeta. rewrite get_inference_object_top_id_outcome.
  split; [|split].
  - now intros v row ->.
  - now intros [e ->].
  - now intros ->.
Qed.

(** X8: a setter raises exactly when [execute] raises for its
    statement, and either way leaves the cursor as [execute] left it: it
    makes no other call on the cursor. *)
Theorem setter_raises_with_execute (s : setter) (id v : val) (c : cursor) :
  snd (run_setter s id v c) = snd (execute (setter_stmt s) [v; id] c) /\
  ((exists e, fst (run_setter s id v c) = inl e) <->
   (exists e, fst (execute (setter_stmt s) [v; id] c) = inl e)).
Proof.
  destruct (run_setter_execute s id v c) as [msg ->].
  destruct (execute (setter_stmt s) [v; id] c) as [[e|[]] c']; cbn.
  - split; [reflexivity|]. split; eauto.
  - split; [reflexivity|]. split; intros [e [=]].
Qed.
End TopIdAndSetters.

(* ===================================================================== *)
(** * More on the query layer, over the relational store                 *)
(* ===================================================================== *)

Section StoreStatements.
Import Py Sql Inference Outcome Store.

(** [SELECT], then [fetchone]: the first of the selected rows. *)
Lemma select_first cols t where_ (w : sqlval) (c : cursor) :
  execute_fetchone (SELECT cols t where_) [w] c =
  if online c && dict_in t (tables c) then
    match filter (matches where_ w) (table c t) with
    | [] => Nothing
    | r :: _ => Fetched (project cols r)
    end
  else DriverRaised
         (Exn DriverError
            (if online c then "relation does not exist"
             else "connection already closed")).
Proof.
  unfold execute_fetchone, fetch_after, table. cbn. unfold run. cbn.
  destruct (online c); cbn; [|reflexivity].
  destruct (dict_get (tables c) t) as [rows|] eqn:E.
  - assert (dict_in t (tables c) = true) as -> by (apply dict_in_get; eauto).
    cbn. now destruct (filter (matches where_ w) rows).
  - apply dict_in_false_get in E. now rewrite E.
Qed.

(** An [INSERT] of three values, then [fetchone]. *)
Lemma insert_run t k1 k2 k3 (x y z : sqlval) (c : cursor) :
  let q := INSERT t [k1; k2; k3] [Placeholder; Placeholder; Placeholder] "id" in
  let row := [("id", INT (next_id c)); (k1, x); (k2, y); (k3, z)] in
  if online c && dict_in t (tables c) then
    exists c1,
      execute q [x; y; z] c = (inr tt, c1) /\
      fetchone c1 = (inr (Some [INT (next_id c)]), set_pending c1 (Some [])) /\
      tables c1 = dict_setitem (tables c) t (table c t ++ [row]) /\
      online c1 = true /\ next_id c1 = (next_id c + 1)%Z /\
      calls c1 = calls c ++ [(q, [x; y; z])]
  else
    exists e,
      execute q [x; y; z] c = (inl e, record_call q [x; y; z] c).
Proof.
  cbv zeta. cbn. unfold run, table. cbn.
  destruct (online c) eqn:Hon; cbn; [|eexists; reflexivity].
  destruct (dict_get (tables c) t) as [rows|] eqn:E.
  - assert (dict_in t (tables c) = true) as -> by (apply dict_in_get; eauto).
    eexists. split; [reflexivity|]. cbn. rewrite Hon. repeat split.
  - apply dict_in_false_get in E. rewrite E. eexists; reflexivity.
Qed.

Lemma table_after_insert (c c1 : cursor) t rows :
  dict_in t (tables c) = true ->
  tables c1 = dict_setitem (tables c) t rows ->
  dict_in t (tables c1) = true /\
  table c1 t = rows /\
  forall t', t' <> t -> table c1 t' = table c t'.
Proof.
  intros Hin E. unfold table. rewrite E. split; [|split].
  - now rewrite dict_in_setitem, String.eqb_refl.
  - now rewrite dict_get_setitem, String.eqb_refl.
  - intros t' Hne. rewrite dict_get_setitem.
    destruct (String.eqb_spec t' t); [contradiction | reflexivity].
Qed.
End StoreStatements.

Section StoreCreate.
Import Py Sql Inference Outcome Store.

(** What a create function does on the store, from [insert_run]. *)
Ltac run_create t k1 k2 k3 x y z c :=
  pose proof (insert_run t k1 k2 k3 x y z c) as Hrun; cbv zeta in Hrun;
  unfold new_inference, new_inference_object, new_seed_object,
    mtry, mbind, mret, mraise, item0;
  destruct (online c && dict_in t (tables c)) eqn:Hlive;
  [ destruct Hrun as (c1 & -> & Hfetch & Htables & Hon & Hnext & Hcalls);
    rewrite Hfetch; cbn
  | destruct Hrun as (e & ->); cbn ].

(** X9: a create function that returns has added one row to its table
    and changed no other row and no other table; that row holds the id
    returned and the three values given, unchanged.  A create function
    that raises has stored nothing. *)
Theorem create_inserts_one_row (x y z : sqlval) (c : cursor) :
  let inserted t k1 k2 k3 a b d (r : result sqlval * cursor) :=
    match fst r with
    | inr id =>
        exists new_row,
          table (snd r) t = table c t ++ [new_row] /\
          column new_row "id" = id /\
          column new_row k1 = a /\ column new_row k2 = b /\
          column new_row k3 = d /\
          (forall t', t' <> t -> table (snd r) t' = table c t')
    | inl _ => tables (snd r) = tables c
    end in
  inserted "inference" "inference" "picture_id" "user_id" x z y
    (new_inference x y z tt c) /\
  inserted "object" "inference_id" "box_metadata" "type_id" x y z
    (new_inference_object x y z c) /\
  inserted "seed_obj" "seed_id" "object_id" "score" x y z
    (new_seed_object x y z c).
Proof.
  cbv zeta. split; [|split].
  - run_create "inference" "inference" "picture_id" "user_id" x z y c;
      [|reflexivity].
    apply andb_prop in Hlive as [_ Hin].
    destruct (table_after_insert c c1 _ _ Hin Htables) as (_ & Ht & Ho).
    eexists. split; [exact Ht|]. repeat split. exact Ho.
  - run_create "object" "inference_id" "box_metadata" "type_id" x y z c;
      [|reflexivity].
    apply andb_prop in Hlive as [_ Hin].
    destruct (table_after_insert c c1 _ _ Hin Htables) as (_ & Ht & Ho).
    eexists. split; [exact Ht|]. repeat split. exact Ho.
  - run_create "seed_obj" "seed_id" "object_id" "score" x y z c;
      [|reflexivity].
    apply andb_prop in Hlive as [_ Hin].
    destruct (table_after_insert c c1 _ _ Hin Htables) as (_ & Ht & Ho).
    eexists. split; [exact Ht|]. repeat split. exact Ho.
Qed.
End StoreCreate.

Section StoreCreateRead.
Import Py Sql Inference Outcome Store.

Ltac run_create t k1 k2 k3 x y z c :=
  pose proof (insert_run t k1 k2 k3 x y z c) as Hrun; cbv zeta in Hrun;
  unfold new_inference, new_inference_object, new_seed_object,
    mtry, mbind, mret, mraise, item0;
  destruct (online c && dict_in t (tables c)) eqn:Hlive;
  [ destruct Hrun as (c1 & -> & Hfetch & Htables & Hon & Hnext & Hcalls);
    rewrite Hfetch; cbn
  | destruct Hrun as (e & ->); cbn ].

Lemma fresh_id_filter (c : cursor) t :
  fresh_id c t = true ->
  filter (matches "id" (INT (next_id c))) (table c t) = [].
Proof.
  unfold fresh_id, matches. induction (table c t) as [|r rows IH]; simpl;
    [reflexivity|].
  intros [Hr Hrows]%andb_prop. apply negb_true_iff in Hr. rewrite Hr. auto.
Qed.

(** X10: create, then read.  When [new_inference] returns an id, and
    no row of the inference table held that id before, [get_inference]
    on that id returns the inference that was given. *)
Theorem create_then_read_inference
    (inference user_id picture_id id : sqlval) (c c' : cursor) :
  fresh_id c "inference" = true ->
  new_inference inference user_id picture_id tt c = (inr id, c') ->
  fst (get_inference id c') = inr inference.
Proof.
  intros Hfresh.
  run_create "inference" "inference" "picture_id" "user_id"
    inference picture_id user_id c; [|discriminate].
  intros [= <- <-].
  apply andb_prop in Hlive as [_ Hin].
  destruct (table_after_insert c c1 _ _ Hin Htables) as (Hin1 & Ht & _).
  rewrite get_inference_outcome, select_first.
  change (online (set_pending c1 (Some []))) with (online c1).
  change (tables (set_pending c1 (Some []))) with (tables c1).
  change (table (set_pending c1 (Some [])) "inference")
    with (table c1 "inference").
  rewrite Hon, Hin1, Ht, filter_app, (fresh_id_filter _ _ Hfresh).
  cbn. unfold matches. cbn. now rewrite Z.eqb_refl.
Qed.

Lemma create_then_read_inference_witness :
  exists id c1,
    new_inference (TEXT "{}") (INT 20) (INT 10) tt sample_store
      = (inr id, c1) /\
    fst (get_inference id c1) = inr (TEXT "{}").
Proof.
  do 2 eexists. split; [reflexivity|].
  apply (create_then_read_inference (TEXT "{}") (INT 20) (INT 10) _
           sample_store); reflexivity.
Defined.
End StoreCreateRead.

Section StoreUpdateRead.
Import Py Sql Inference Outcome Store.

(** A setter on the store: it returns, with the rows of the id
    assigned, when the connection is live and its table exists, and
    raises with nothing changed otherwise. *)
Lemma setter_run (s : setter) (id v : sqlval) (c : cursor) :
  let upd r :=
    if sql_eqb (column r "id") id then
      match s with
      | ObjectVerifiedId =>
          dict_setitem (dict_setitem r "verified_id" v)
            "updated_at" (INT (clock c))
      | _ => dict_setitem r (setter_column s) v
      end
    else r in
  if online c && dict_in (setter_table s) (tables c) then
    exists c1,
      run_setter s id v c = (inr tt, c1) /\
      online c1 = true /\
      tables c1 =
        dict_setitem (tables c) (setter_table s)
          (map upd (table c (setter_table s)))
  else
    exists e c1,
      run_setter s id v c = (inl e, c1) /\
      online c1 = online c /\ tables c1 = tables c.
Proof.
  cbv zeta.
  destruct (run_setter_execute s id v c) as [msg ->].
  destruct (online c) eqn:Hon; cbn [andb].
  - destruct (dict_in (setter_table s) (tables c)) eqn:Hin.
    + apply dict_in_get in Hin as [rows Hrows]. unfold table. rewrite Hrows.
      destruct s; cbn in *; unfold run; cbn; rewrite Hon; cbn; rewrite Hrows;
        eexists; (split; [reflexivity|]); cbn; (split; [exact Hon|]);
        reflexivity.
    + apply dict_in_false_get in Hin.
      destruct s; cbn in *; unfold run; cbn; rewrite Hon; cbn; rewrite Hin;
        do 2 eexists; (split; [reflexivity|]); cbn;
        (split; [exact Hon | reflexivity]).
  - destruct s; cbn in *; unfold run; cbn; rewrite Hon; cbn;
      do 2 eexists; (split; [reflexivity|]); cbn;
      (split; [exact Hon | reflexivity]).
Qed.

Lemma filter_map_same {A} (p : A -> bool) (f : A -> A) (l : list A) :
  (forall x, p (f x) = p x) -> filter p (map f l) = map f (filter p l).
Proof.
  intros Hp. induction l as [|x l IH]; simpl; [reflexivity|].
  rewrite Hp. destruct (p x); simpl; now rewrite IH.
Qed.

Lemma column_setitem (r : row) k v col :
  column (dict_setitem r k v) col =
  if String.eqb col k then v else column r col.
Proof.
  unfold column. rewrite dict_get_setitem. now destruct (String.eqb col k).
Qed.

Lemma filter_nil_existsb {A} (p : A -> bool) (l : list A) :
  existsb p l = false <-> filter p l = [].
Proof.
  induction l as [|x l IH]; simpl; [tauto|].
  destruct (p x); simpl; [split; discriminate | exact IH].
Qed.

(** X12: set, then get.  When [set_inference_object_top_id] returns,
    [get_inference_object_top_id] on the same id returns the value
    that was set if a row of the object table has the id, and raises
    if none has. *)
Theorem set_then_get_top_id (id top_id : sqlval) (c c1 : cursor) :
  set_inference_object_top_id id top_id c = (inr tt, c1) ->
  fst (get_inference_object_top_id id c1) =
    if existsb (fun r => sql_eqb (column r "id") id) (table c "object")
    then inr top_id
    else inl (Exn Exception
                ("Error: could not get top_inference_id for inference "
                 ++ str id)).
Proof.
  pose proof (setter_run ObjectTopId id top_id c) as Hrun.
  cbv zeta in Hrun. cbn [setter_table setter_column run_setter] in Hrun.
  destruct (online c && dict_in "object" (tables c)) eqn:Hlive;
    [|destruct Hrun as (e & c' & -> & _); discriminate].
  destruct Hrun as (c' & -> & Hon1 & Ht). intros [= <-].
  apply andb_prop in Hlive as [Hon Hin].
  destruct (table_after_insert c c' _ _ Hin Ht) as (Hin1 & Ht1 & _).
  rewrite get_inference_object_top_id_outcome, select_first.
  rewrite Hon1, Hin1, Ht1. cbn [andb].
  rewrite filter_map_same.
  - unfold matches.
    destruct (existsb (fun r => sql_eqb (column r "id") id)
                (table c "object")) eqn:Hex.
    + destruct (filter (fun r => sql_eqb (column r "id") id)
                  (table c "object")) as [|r0 rest] eqn:Hf.
      * apply filter_nil_existsb in Hf. congruence.
      * assert (Hr0 : sql_eqb (column r0 "id") id = true).
        { assert (Hi : In r0 (filter (fun r => sql_eqb (column r "id") id)
                               (table c "object")))
            by (rewrite Hf; now left).
          now apply filter_In in Hi as [_ Hi]. }
        cbn. rewrite Hr0. cbn. now rewrite column_setitem.
    + apply filter_nil_existsb in Hex. now rewrite Hex.
  - intros r. unfold matches.
    destruct (sql_eqb (column r "id") id) eqn:Hr; [|exact Hr].
    rewrite column_setitem. exact Hr.
Qed.

Lemma set_then_get_top_id_witness :
  (exists c1,
     set_inference_object_top_id (INT 2) (INT 3) sample_store = (inr tt, c1) /\
     fst (get_inference_object_top_id (INT 2) c1) = inr (INT 3)) /\
  (exists c1,
     set_inference_object_top_id (INT 9) (INT 3) sample_store = (inr tt, c1) /\
     fst (get_inference_object_top_id (INT 9) c1) =
       inl (Exn Exception
              "Error: could not get top_inference_id for inference 9")).
Proof.
  split; eexists; (split; [reflexivity|]).
  - apply (set_then_get_top_id (INT 2) (INT 3) sample_store). reflexivity.
  - apply (set_then_get_top_id (INT 9) (INT 3) sample_store). reflexivity.
Defined.
End StoreUpdateRead.

Section StoreTraffic.
Import Py Sql Inference Outcome Store.

Lemma keeps_bind {X A B} (f : cursor -> X) (m : M cursor A)
    (k : A -> M cursor B) :
  keeps f m -> (forall a, keeps f (k a)) -> keeps f (mbind m k).
Proof.
  intros Hm Hk c. unfold mbind. specialize (Hm c).
  destruct (m c) as [[e|a] c1]; cbn in *; [exact Hm|].
  now rewrite Hk.
Qed.

Lemma keeps_try {X A} (f : cursor -> X) (body : M cursor A) cls h :
  keeps f body -> (forall e, keeps f (h e)) -> keeps f (mtry body cls h).
Proof.
  intros Hm Hh c. unfold mtry. specialize (Hm c).
  destruct (body c) as [[e|a] c1]; cbn in *; [|exact Hm].
  destruct (isinstance e cls); [|exact Hm]. now rewrite Hh.
Qed.

Lemma keeps_ret {X A} (f : cursor -> X) (a : A) : keeps f (mret a).
Proof. now intros c. Qed.

Lemma keeps_raise {X A} (f : cursor -> X) e : keeps f (@mraise cursor A e).
Proof. now intros c. Qed.

Lemma keeps_item0 {X} (f : cursor -> X) (row : option (list sqlval)) :
  keeps f (item0 row).
Proof. intros c. now destruct row as [[|v row]|]. Qed.

Lemma fetchone_keeps : keeps stored fetchone /\ keeps calls fetchone.
Proof.
  split; intros c; cbn; now destruct (pending c) as [[|r rs]|].
Qed.

Lemma fetchall_keeps : keeps stored fetchall /\ keeps calls fetchall.
Proof. split; intros c; cbn; now destruct (pending c) as [rs|]. Qed.

Lemma select_keeps cols t where_ (params : list sqlval) :
  keeps stored (execute (SELECT cols t where_) params).
Proof.
  intros c. cbn. unfold run. cbn.
  destruct (online c); cbn; [|reflexivity].
  destruct (dict_get (tables c) t); [|reflexivity].
  now destruct params as [|w [|? ?]].
Qed.

Lemma execute_sends q (params : list sqlval) :
  sends (execute q params) [(q, params)].
Proof.
  intros c. cbn. unfold run. cbn.
  destruct (online c); cbn; [|reflexivity].
  destruct q as [t cols vals ret|cols t w|t set w]; cbn.
  - destruct (dict_get (tables c) t); [|reflexivity].
    destruct (bind_exprs (clock c) vals params) as [[vs [|? ?]]|];
      try reflexivity.
    now destruct (length cols =? length vs)%nat.
  - destruct (dict_get (tables c) t); [|reflexivity].
    now destruct params as [|? [|? ?]].
  - destruct (dict_get (tables c) t); [|reflexivity].
    now destruct (bind_exprs (clock c) (map snd set) params)
      as [[vs [|? [|? ?]]]|].
Qed.

Lemma sends_bind {A B} (m : M cursor A) (k : A -> M cursor B) l :
  sends m l -> (forall a, keeps calls (k a)) -> sends (mbind m k) l.
Proof.
  intros Hm Hk c. unfold mbind. specialize (Hm c).
  destruct (m c) as [[e|a] c1]; cbn in *; [exact Hm|].
  now rewrite Hk.
Qed.

Lemma sends_try {A} (body : M cursor A) cls h l :
  sends body l -> (forall e, keeps calls (h e)) -> sends (mtry body cls h) l.
Proof.
  intros Hm Hh c. unfold mtry. specialize (Hm c).
  destruct (body c) as [[e|a] c1]; cbn in *; [|exact Hm].
  destruct (isinstance e cls); [|exact Hm]. now rewrite Hh.
Qed.

Ltac traffic :=
  repeat first
    [ apply sends_try | apply sends_bind | apply execute_sends
    | apply keeps_try | apply keeps_bind
    | apply keeps_ret | apply keeps_raise | apply keeps_item0
    | apply select_keeps
    | apply (proj1 fetchone_keeps) | apply (proj2 fetchone_keeps)
    | apply (proj1 fetchall_keeps) | apply (proj2 fetchall_keeps)
    | match goal with
      | |- forall _, _ => intro
      | |- keeps _ (match ?x with _ => _ end) => destruct x
      end ].

(** X13: the four read functions store nothing: whatever they return
    or raise, the tables and the key sequence are as before. *)
Theorem reads_store_nothing (id : sqlval) :
  keeps stored (get_inference id) /\
  keeps stored (get_inference_object id) /\
  keeps stored (get_objects_by_inference id) /\
  keeps stored (get_inference_object_top_id id).
Proof.
  unfold get_inference, get_inference_object, get_objects_by_inference,
    get_inference_object_top_id.
  repeat split; traffic.
Qed.

(** X14: every function of the query layer hands the cursor one
    statement, once, whether it returns or raises, and the values it
    was given travel as the parameters of that statement, in the order
    of its placeholders. *)
Theorem one_statement_per_call (x y z : sqlval) :
  let three := [Placeholder; Placeholder; Placeholder] in
  sends (new_inference x y z tt)
    [(INSERT "inference" ["inference"; "picture_id"; "user_id"] three "id",
      [x; z; y])] /\
  sends (get_inference x)
    [(SELECT (Some ["inference"]) "inference" "id", [x])] /\
  sends (set_inference_feedback_user_id x y)
    [(UPDATE "inference" [("feedback_user_id", Placeholder)] "id", [y; x])] /\
  sends (set_inference_verified x y)
    [(UPDATE "inference" [("verified", Placeholder)] "id", [y; x])] /\
  sends (new_inference_object x y z)
    [(INSERT "object" ["inference_id"; "box_metadata"; "type_id"] three "id",
      [x; y; z])] /\
  sends (get_inference_object x) [(SELECT None "object" "id", [x])] /\
  sends (get_objects_by_inference x)
    [(SELECT None "object" "inference_id", [x])] /\
  sends (set_inference_object_top_id x y)
    [(UPDATE "object" [("top_id", Placeholder)] "id", [y; x])] /\
  sends (get_inference_object_top_id x)
    [(SELECT (Some ["top_id"]) "object" "id", [x])] /\
  sends (set_inference_object_verified_id x y)
    [(UPDATE "object"
        [("verified_id", Placeholder); ("updated_at", CURRENT_TIMESTAMP)]
        "id", [y; x])] /\
  sends (set_inference_object_valid x y)
    [(UPDATE "object" [("valid", Placeholder)] "id", [y; x])] /\
  sends (new_seed_object x y z)
    [(INSERT "seed_obj" ["seed_id"; "object_id"; "score"] three "id",
      [x; y; z])].
Proof.
  cbv zeta.
  unfold new_inference, get_inference, set_inference_feedback_user_id,
    set_inference_verified, new_inference_object, get_inference_object,
    get_objects_by_inference, set_inference_object_top_id,
    get_inference_object_top_id, set_inference_object_verified_id,
    set_inference_object_valid, new_seed_object.
  repeat split; traffic.
Qed.
End StoreTraffic.

Section StoreSettersAndReads.
Import Py Sql Inference Outcome Store.


Lemma top_id_read_witness :
  fst (get_inference_object_top_id (INT 2)
         (snd (set_inference_object_top_id (INT 2) (INT 3) sample_store)))
    = inr (INT 3) /\
  fst (get_inference_object_top_id (INT 2) (offline sample_store))
    = inl (Exn Exception
             "Error: could not get top_inference_id for inference 2") /\
  fst (get_inference_object_top_id (INT 9) sample_store)
    = inl (Exn Exception
             "Error: could not get top_inference_id for inference 9").
Proof.
  destruct (top_id_read (INT 2)
              (snd (set_inference_object_top_id (INT 2) (INT 3) sample_store)))
    as (H1 & _ & _).
  destruct (top_id_read (INT 2) (offline sample_store)) as (_ & H2 & _).
  destruct (top_id_read (INT 9) sample_store) as (_ & _ & H3).
  split; [|split].
  - eapply H1. reflexivity.
  - apply H2. eexists. reflexivity.
  - apply H3. reflexivity.
Defined.

Lemma create_inserts_one_row_witness :
  exists id new_row,
    fst (new_seed_object (INT 7) (INT 2) (REAL "0.75") sample_store) = inr id /\
    table (snd (new_seed_object (INT 7) (INT 2) (REAL "0.75") sample_store))
      "seed_obj" = [new_row] /\
    column new_row "id" = id /\
    column new_row "score" = REAL "0.75".
Proof.
  destruct (create_inserts_one_row (INT 7) (INT 2) (REAL "0.75") sample_store)
    as (_ & _ & Hrow).
  cbn [fst] in Hrow. destruct Hrow as (r & Ht & Hid & _ & _ & Hs & _).
  exists (INT 5), r. split; [reflexivity|]. repeat split; assumption.
Defined.

Lemma query_errors_witness :
  exists e,
    fst (new_seed_object (INT 7) (INT 2) (REAL "0.75") (offline sample_store))
      = inl e /\
    e = Exn SeedObjectCreationError "Error: seed object not uploaded".
Proof.
  eexists. split; [reflexivity|].
  destruct (query_errors (INT 7) (INT 2) (REAL "0.75"))
    as (_ & _ & _ & _ & _ & _ & _ & _ & _ & _ & _ & Hseed).
  apply (Hseed (offline sample_store)). reflexivity.
Defined.
End StoreSettersAndReads.
